(** * Fable.Remoting.Ts: the service proxy of [index.ts]

    A shallow embedding of [createService] and of the functions its
    [get] trap hands out, in the two revisions of [index.ts] the
    repository carries:

    - [Index]: the file [src/index.ts] (two control names, request body
      packed when [withMsgPack]);
    - [Extended]: the revision with interceptors and [createRequest]
      that follows the usage notes in [README.md] (five control names,
      response data unpacked when [withMsgPack]).

    JavaScript values, objects with a prototype chain, the [Proxy]
    dispatch and the axios instance are modelled explicitly; the network
    and the msgpack codec are parameters ([collaborators]). A promise is
    given by how it settles. Numbers are integers: only their truthiness
    and [typeof] are observed. *)

From Stdlib Require Import ZArith.
From stdpp Require Import base option strings list gmap fin_maps pretty.

Local Set Warnings "-register-all".
Open Scope string_scope.
Open Scope list_scope.

(** ** JavaScript values *)

(** A property key is a string or a symbol (given by its description). *)
Inductive prop_key :=
| KStr (s : string)
| KSym (description : string).

Global Instance prop_key_eq_dec : EqDecision prop_key.
Proof. solve_decision. Defined.

Global Instance prop_key_countable : Countable prop_key.
Proof.
  refine (inj_countable'
    (fun k => match k with KStr s => inl s | KSym d => inr d end)
    (fun x => match x with inl s => KStr s | inr d => KSym d end) _).
  by intros [].
Defined.

(** [String(property)] *)
Definition String_of_key (k : prop_key) : string :=
  match k with
  | KStr s => s
  | KSym d => "Symbol(" +:+ d +:+ ")"
  end.

Inductive err_class := TypeError | OtherError (name : string).

(** Function values are closures; the ones [index.ts] builds capture the
    axios instance [$http] by reference (its handle). *)
Inductive closure :=
| CNative (name : string)
| CAddHeaders (http : nat)
| CRemoveHeaders (http : nat)
| CAddInterceptor (http : nat)
| CRemoveInterceptor (http : nat)
| CCreateRequest (http : nat)
| CDefaultTrap (http : nat) (serviceName : option string)
               (property : prop_key) (withMsgPack : bool).

Inductive value :=
| VUndefined
| VNull
| VBool (b : bool)
| VNum (n : Z)
| VStr (s : string)
| VBytes (bs : list Z)
| VArr (items : list value)
| VObj (fields : gmap string value)
| VFun (c : closure)
| VError (c : err_class) (message : string)
| VPromise (fulfilled : bool) (payload : value).

(** A call or a property read either completes normally or throws a
    value. *)
Inductive completion (A : Type) :=
| Normal (a : A)
| Throw (e : value).
Arguments Normal {A} a.
Arguments Throw {A} e.

(** [typeof v] *)
Definition typeof (v : value) : string :=
  match v with
  | VUndefined => "undefined"
  | VBool _ => "boolean"
  | VNum _ => "number"
  | VStr _ => "string"
  | VFun _ => "function"
  | VNull | VBytes _ | VArr _ | VObj _ | VError _ _ | VPromise _ _ => "object"
  end.

(** ToBoolean, as used by [!v], [a && b] and [if (v)]. *)
Definition truthy (v : value) : bool :=
  match v with
  | VUndefined | VNull => false
  | VBool b => b
  | VNum n => negb (n =? 0)%Z
  | VStr s => negb (String.eqb s "")
  | _ => true
  end.

(** [a && b] *)
Definition js_and (a b : value) : value := if truthy a then b else a.

(** [a ?? b] *)
Definition nullish (v : value) : bool :=
  match v with VUndefined | VNull => true | _ => false end.
Definition js_coalesce (a b : value) : value := if nullish a then b else a.

(** [v === s] for a string literal [s] *)
Definition strict_eq (v : value) (s : string) : bool :=
  match v with VStr s' => String.eqb s' s | _ => false end.

(** [err instanceof TypeError] *)
Definition instanceof_TypeError (err : value) : bool :=
  match err with VError TypeError _ => true | _ => false end.

Definition indexed {A} (l : list A) : gmap string A :=
  list_to_map (imap (fun i x => (pretty i, x)) l).

(** The own enumerable string-keyed properties an object spread
    [{...v}] copies. *)
Definition spread (v : value) : gmap string value :=
  match v with
  | VObj fields => fields
  | VArr items => indexed items
  | VBytes bs => indexed (VNum <$> bs)
  | VStr s => indexed ((fun c => VStr (String c EmptyString)) <$> String.list_ascii_of_string s)
  | _ => ∅
  end.

(** [v.name] on a value that is not a proxy. *)
Definition get_field (v : value) (name : string) : completion value :=
  match v with
  | VUndefined | VNull => Throw (VError TypeError "Cannot read properties of undefined")
  | VObj fields => Normal (default VUndefined (fields !! name))
  | _ => Normal VUndefined
  end.

(** ToString, as a computed member access applies it to its key.
    Objects convert as plain ones: no [toString] or [valueOf] of the
    caller is run, and a function gives some source text. *)
Fixpoint ToString (v : value) : string :=
  match v with
  | VUndefined => "undefined"
  | VNull => "null"
  | VBool b => if b then "true" else "false"
  | VNum n => pretty n
  | VStr s => s
  | VBytes bs => String.concat "," (pretty <$> bs)
  | VArr items =>
      String.concat ","
        ((fix elements (l : list value) : list string :=
            match l with
            | [] => []
            | x :: l' =>
                match x with
                | VUndefined | VNull => ""
                | _ => ToString x
                end :: elements l'
            end) items)
  | VObj _ => "[object Object]"
  | VFun _ => "function () { [native code] }"
  | VError c message =>
      let name := match c with TypeError => "TypeError" | OtherError name => name end in
      if String.eqb message "" then name
      else if String.eqb name "" then message
      else name +:+ ": " +:+ message
  | VPromise _ _ => "[object Promise]"
  end.

(** A value of an optional string or boolean field. *)
Definition of_string (o : option string) : value :=
  match o with Some s => VStr s | None => VUndefined end.
Definition of_bool (o : option bool) : value :=
  match o with Some b => VBool b | None => VUndefined end.

(** A string-typed value inside a template literal. *)
Definition template (o : option string) : string := default "undefined" o.

(** ** Objects and the [Proxy] dispatch *)

(** What a getter is called on: the base object itself, when the caller
    reads it directly, or the proxy, which the [get] trap passes on as
    the receiver of [Reflect.get]. *)
Inductive receiver := OnTarget | OnProxy.

(** A base object is an ordinary object: own properties, a prototype
    chain and the extensible flag. A property is a data property with
    its [writable] and [configurable] attributes, or an accessor. An
    accessor may lack its getter or its setter; a getter is given by
    what it returns or throws on each receiver, a setter by whether it
    returns or throws on the value written through the proxy (what the
    caller's getter or setter does besides is not represented). *)
Inductive slot :=
| Data (v : value) (writable configurable : bool)
| Accessor (getter : option (receiver -> completion value))
           (setter : option (value -> completion unit)) (configurable : bool).

Record object := {
  own : gmap prop_key slot;
  prototypes : list (gmap prop_key slot);
  extensible : bool;
}.

Fixpoint find_slot (chain : list (gmap prop_key slot)) (k : prop_key) : option slot :=
  match chain with
  | [] => None
  | props :: rest =>
      match props !! k with
      | Some s => Some s
      | None => find_slot rest k
      end
  end.

Definition lookup_slot (o : object) (k : prop_key) : option slot :=
  find_slot (own o :: prototypes o) k.

(** [Reflect.get(target, property, receiver)] *)
Definition Reflect_get (target : object) (property : prop_key) (this : receiver)
  : completion value :=
  match lookup_slot target property with
  | Some (Data v _ _) => Normal v
  | Some (Accessor (Some getter) _ _) => getter this
  | Some (Accessor None _ _) => Normal VUndefined
  | None => Normal VUndefined
  end.

(** [property in target] *)
Definition Reflect_has (target : object) (property : prop_key) : bool :=
  bool_decide (is_Some (lookup_slot target property)).

(** The set of [Reflect.ownKeys(target)] *)
Definition Reflect_ownKeys (target : object) : gset prop_key := dom (own target).

Definition run_setter (setter : option (value -> completion unit)) (v : value)
  : completion bool :=
  match setter with
  | None => Normal false
  | Some set =>
      match set v with
      | Normal _ => Normal true
      | Throw e => Throw e
      end
  end.

Definition define_own (target : object) (property : prop_key) (s : slot) : object :=
  {| own := <[property := s]> (own target);
     prototypes := prototypes target;
     extensible := extensible target |}.

(** [target[property] = v], the ordinary [[Set]]: a read-only property,
    own or inherited, refuses the write, an accessor hands it to its
    setter, and a name that is no own property is added only to an
    extensible object. *)
Definition Reflect_set (target : object) (property : prop_key) (v : value)
  : completion bool * object :=
  match own target !! property with
  | Some (Data _ writable configurable) =>
      if writable
      then (Normal true, define_own target property (Data v true configurable))
      else (Normal false, target)
  | Some (Accessor _ setter _) => (run_setter setter v, target)
  | None =>
      match find_slot (prototypes target) property with
      | Some (Data _ false _) => (Normal false, target)
      | Some (Accessor _ setter _) => (run_setter setter v, target)
      | Some (Data _ true _) | None =>
          if extensible target
          then (Normal true, define_own target property (Data v true true))
          else (Normal false, target)
      end
  end.

(** [delete target[property]]: refused for a non-configurable own
    property. *)
Definition Reflect_deleteProperty (target : object) (property : prop_key) : bool * object :=
  match own target !! property with
  | Some (Data _ _ false) | Some (Accessor _ _ false) => (false, target)
  | _ => (true, {| own := delete property (own target);
                   prototypes := prototypes target;
                   extensible := extensible target |})
  end.

Definition native (name : string) : slot := Data (VFun (CNative name)) true true.

(** What [{}] inherits: the functions of [Object.prototype] and its
    [__proto__] accessor, whose getter yields the prototype, an object
    without enumerable properties, and whose setter returns (that it
    replaces the prototype chain is not represented). *)
Definition Object_prototype : gmap prop_key slot :=
  <[KStr "__proto__" :=
      Accessor (Some (fun _ => Normal (VObj ∅))) (Some (fun _ => Normal tt)) true]>
    (list_to_map
       ((fun name => (KStr name, native ("Object.prototype." +:+ name))) <$>
          ["constructor"; "hasOwnProperty"; "isPrototypeOf"; "propertyIsEnumerable";
           "toLocaleString"; "toString"; "valueOf";
           "__defineGetter__"; "__defineSetter__";
           "__lookupGetter__"; "__lookupSetter__"])).

(** The object literal [{}] and plain object literals. *)
Definition empty_object : object :=
  {| own := ∅; prototypes := [Object_prototype]; extensible := true |}.
Definition literal (props : list (string * value)) : object :=
  {| own := list_to_map ((fun kv => (KStr kv.1, Data kv.2 true true)) <$> props);
     prototypes := [Object_prototype];
     extensible := true |}.

(** [Object.freeze({...})] *)
Definition frozen (props : list (string * value)) : object :=
  {| own := list_to_map ((fun kv => (KStr kv.1, Data kv.2 false false)) <$> props);
     prototypes := [Object_prototype];
     extensible := false |}.

(** What a [get] trap returns: a value it found with [Reflect.get] on
    its target, or a function object it has just made, which is the same
    as no value held anywhere before. *)
Inductive trap_result :=
| Found (v : value)
| Made (c : closure).

Definition value_of (r : trap_result) : value :=
  match r with
  | Found v => v
  | Made c => VFun c
  end.

(** [existing ?? made] *)
Definition found_or_made (existing : value) (made : closure) : trap_result :=
  if nullish existing then Made made else Found existing.

(** A proxy handler: each trap is optional. *)
Record ProxyHandler := {
  trap_get : option (object -> prop_key -> receiver -> completion trap_result);
  trap_has : option (object -> prop_key -> bool);
  trap_ownKeys : option (object -> gset prop_key);
  trap_set : option (object -> prop_key -> value -> completion bool * object);
  trap_deleteProperty : option (object -> prop_key -> bool * object);
}.

(** [new Proxy(target, handler)]: the target is held by reference. *)
Record Proxy := {
  proxy_target : nat;
  proxy_handler : ProxyHandler;
}.

(** ** The world: objects, axios instances and the requests handed to
    the transport *)

Inductive request :=
| Get (http : nat) (url : string)
| Post (http : nat) (url : string) (data : value)
| Request (http : nat) (config : value).

(** An interceptor chain: registered handler pairs, [None] once ejected. *)
Definition chain := list (option (value * value)).

Record AxiosInstance := {
  create_config : gmap string value;
  defaults_headers : gmap string value;
  request_chain : chain;
  response_chain : chain;
}.

Record world := {
  objects : list object;
  https : list AxiosInstance;
  sent : list request;
}.

(** The collaborators the library is used with: the msgpack codec and
    the way the network settles a request (fulfilled?, payload). *)
Record collaborators := {
  serialize : value -> list Z;
  deserialize : value -> completion value;
  respond : request -> bool * value;
}.

Definition empty_world : world := {| objects := []; https := []; sent := [] |}.

Definition object_at (t : nat) (w : world) : object :=
  default empty_object (objects w !! t).

Definition alloc (o : object) (w : world) : nat * world :=
  (length (objects w),
   {| objects := objects w ++ [o]; https := https w; sent := sent w |}).

Definition store (t : nat) (o : object) (w : world) : world :=
  {| objects := <[t := o]> (objects w); https := https w; sent := sent w |}.

Definition cbind {A B} (c : completion A) (k : A -> completion B) : completion B :=
  match c with
  | Normal a => k a
  | Throw e => Throw e
  end.

(** [promise.then(onFulfilled)], the promise given by how it settles. *)
Definition promise_then (promise : value) (onFulfilled : value -> completion value) : value :=
  match promise with
  | VPromise true result =>
      match onFulfilled result with
      | Normal r => VPromise true r
      | Throw e => VPromise false e
      end
  | _ => promise
  end.

(** The part of axios the library calls. *)
Module axios.

Definition empty_instance : AxiosInstance :=
  {| create_config := ∅; defaults_headers := ∅;
     request_chain := []; response_chain := [] |}.

Definition instance (http : nat) (w : world) : AxiosInstance :=
  default empty_instance (https w !! http).

Definition update (http : nat) (f : AxiosInstance -> AxiosInstance) (w : world) : world :=
  {| objects := objects w; https := alter f http (https w); sent := sent w |}.

(** The default headers axios itself starts from (those of axios 0.19
    to 0.21). *)
Definition library_headers : gmap string value :=
  list_to_map
    [("common", VObj (<["Accept" := VStr "application/json, text/plain, */*"]> ∅));
     ("delete", VObj ∅); ("get", VObj ∅); ("head", VObj ∅);
     ("post", VObj (<["Content-Type" := VStr "application/x-www-form-urlencoded"]> ∅));
     ("put", VObj (<["Content-Type" := VStr "application/x-www-form-urlencoded"]> ∅));
     ("patch", VObj (<["Content-Type" := VStr "application/x-www-form-urlencoded"]> ∅))].

(** The merge of the [headers] option into them: the option wins, and
    where both hold an object under a name the two are merged. *)
Definition merge_headers (option library : gmap string value) : gmap string value :=
  union_with
    (fun o l =>
       Some (if String.eqb (typeof o) "object" && String.eqb (typeof l) "object"
             then VObj (spread o ∪ spread l)
             else o))
    ((fun o => if String.eqb (typeof o) "object" then VObj (spread o) else o) <$> option)
    library.

(** [axios.create(config)] *)
Definition create (config : gmap string value) (w : world) : nat * world :=
  (length (https w),
   {| objects := objects w;
      https := https w ++
        [{| create_config := config;
            defaults_headers :=
              merge_headers (spread (default VUndefined (config !! "headers")))
                library_headers;
            request_chain := []; response_chain := [] |}];
      sent := sent w |}).

(** [$http.defaults.headers] and the assignment to it *)
Definition headers (http : nat) (w : world) : gmap string value :=
  defaults_headers (instance http w).

Definition set_headers (http : nat) (hs : gmap string value) (w : world) : world :=
  update http (fun i =>
    {| create_config := create_config i; defaults_headers := hs;
       request_chain := request_chain i; response_chain := response_chain i |}) w.

Definition dispatch (env : collaborators) (r : request) (w : world) : value * world :=
  (let '(ok, payload) := respond env r in VPromise ok payload,
   {| objects := objects w; https := https w; sent := sent w ++ [r] |}).

(** [$http.get(url)], [$http.post(url, data)], [$http.request(config)] *)
Definition get (env : collaborators) (http : nat) (url : string) : world -> value * world :=
  dispatch env (Get http url).
Definition post (env : collaborators) (http : nat) (url : string) (data : value)
  : world -> value * world :=
  dispatch env (Post http url data).
Definition request (env : collaborators) (http : nat) (config : value)
  : world -> value * world :=
  dispatch env (Request http config).

(** [$http.interceptors[phase]]: [use] appends and returns the index,
    [eject] blanks the entry. *)
Definition chain_of (phase : string) (i : AxiosInstance) : chain :=
  if String.eqb phase "request" then request_chain i else response_chain i.

Definition set_chain (phase : string) (c : chain) (i : AxiosInstance) : AxiosInstance :=
  if String.eqb phase "request"
  then {| create_config := create_config i; defaults_headers := defaults_headers i;
          request_chain := c; response_chain := response_chain i |}
  else {| create_config := create_config i; defaults_headers := defaults_headers i;
          request_chain := request_chain i; response_chain := c |}.

Definition use (http : nat) (phase : string) (onFulfilled onRejected : value) (w : world)
  : value * world :=
  let c := chain_of phase (instance http w) in
  (VNum (Z.of_nat (length c)),
   update http (set_chain phase (c ++ [Some (onFulfilled, onRejected)])) w).

Definition eject (http : nat) (phase : string) (id : value) (w : world) : value * world :=
  (VUndefined,
   match id with
   | VNum n =>
       if (0 <=? n)%Z
       then update http (fun i =>
              set_chain phase (<[Z.to_nat n := None]> (chain_of phase i)) i) w
       else w
   | _ => w
   end).

End axios.

(** ** Operations on a proxy

    A trap that the handler lacks forwards the operation to the target. *)

(** What a trap returned, as a value. *)
Definition returned (c : completion trap_result) : completion value :=
  match c with
  | Normal r => Normal (value_of r)
  | Throw e => Throw e
  end.

(** What the [get] trap, called by a read of the proxy, returns. *)
Definition proxy_get (p : Proxy) (k : prop_key) (w : world) : completion value :=
  let target := object_at (proxy_target p) w in
  match trap_get (proxy_handler p) with
  | Some trap => returned (trap target k OnProxy)
  | None => Reflect_get target k OnProxy
  end.

(** The engine's check of what a [get] trap returned: for a
    non-writable, non-configurable own data property of the target the
    trap has to return that property's value, and for a non-configurable
    own accessor without a getter it has to return [undefined]. *)
Definition respects_invariant (target : object) (k : prop_key) (r : trap_result) : bool :=
  match own target !! k with
  | Some (Data _ false false) =>
      match r with
      | Found _ => true
      | Made _ => false
      end
  | Some (Accessor None _ false) =>
      match r with
      | Found VUndefined => true
      | _ => false
      end
  | _ => true
  end.

Definition TypeError_of_proxy : value :=
  VError TypeError "'get' on proxy: the trap did not return the value of the property".

Definition checked (target : object) (k : prop_key) (c : completion trap_result)
  : completion value :=
  match c with
  | Normal r =>
      if respects_invariant target k r then Normal (value_of r) else Throw TypeError_of_proxy
  | Throw e => Throw e
  end.

(** [proxy[k]]: the trap, then the engine's check. *)
Definition proxy_read (p : Proxy) (k : prop_key) (w : world) : completion value :=
  let target := object_at (proxy_target p) w in
  match trap_get (proxy_handler p) with
  | Some trap => checked target k (trap target k OnProxy)
  | None => Reflect_get target k OnProxy
  end.

Definition proxy_has (p : Proxy) (k : prop_key) (w : world) : bool :=
  let target := object_at (proxy_target p) w in
  match trap_has (proxy_handler p) with
  | Some trap => trap target k
  | None => Reflect_has target k
  end.

Definition proxy_ownKeys (p : Proxy) (w : world) : gset prop_key :=
  let target := object_at (proxy_target p) w in
  match trap_ownKeys (proxy_handler p) with
  | Some trap => trap target
  | None => Reflect_ownKeys target
  end.

Definition proxy_set (p : Proxy) (k : prop_key) (v : value) (w : world)
  : completion bool * world :=
  let target := object_at (proxy_target p) w in
  let '(ok, target') :=
    match trap_set (proxy_handler p) with
    | Some trap => trap target k v
    | None => Reflect_set target k v
    end in
  (ok, store (proxy_target p) target' w).

Definition proxy_delete (p : Proxy) (k : prop_key) (w : world) : bool * world :=
  let target := object_at (proxy_target p) w in
  let '(ok, target') :=
    match trap_deleteProperty (proxy_handler p) with
    | Some trap => trap target k
    | None => Reflect_deleteProperty target k
    end in
  (ok, store (proxy_target p) target' w).

(** [proxy[k](...args)] for a given meaning of closures; [None] when the
    callee is a function the model does not interpret. *)
Definition invoke (call : closure -> list value -> world -> option (completion value * world))
    (p : Proxy) (k : prop_key) (args : list value) (w : world)
  : option (completion value * world) :=
  match proxy_read p k w with
  | Normal (VFun c) => call c args w
  | Normal _ => Some (Throw (VError TypeError "not a function"), w)
  | Throw e => Some (Throw e, w)
  end.

(** The config parameter of [createService]; a field left out is [None]. *)
Record RemotingConfigParam := {
  baseURL : option string;
  serviceName : option string;
  withMsgPack : option bool;
}.

(** String arguments, as the signature of [removeHeaders] types them. *)
Definition strings_of (args : list value) : option (list string) :=
  mapM (fun v => match v with VStr s => Some s | _ => None end) args.

Definition msgpack_headers : gmap string value :=
  <["Content-Type" := VStr "application/msgpack"]>
    (<["Accept" := VStr "application/json, application/msgpack"]> ∅).

(** ** [src/index.ts] *)

Module Index.
Section WithCollaborators.
Context (env : collaborators).

(** [addHeadersInternal($http)] returns the closure [addHeaders]. *)
Definition addHeadersInternal (http : nat) : closure := CAddHeaders http.

Definition addHeaders (http : nat) (arguments : list value) (w : world)
  : completion value * world :=
  let headers :=
    if (0 <? length arguments)%nat
    then default VUndefined (arguments !! 0)
    else VNull in
  if negb (truthy headers) || negb (String.eqb (typeof headers) "object")
  then (Throw (VError TypeError
                 "this functioun should have one parameter and it must be an object"), w)
  else (Normal VUndefined,
        axios.set_headers http (spread headers ∪ axios.headers http w) w).

(** [removeHeadersInternal($http)] returns the closure [removeHeaders]. *)
Definition removeHeadersInternal (http : nat) : closure := CRemoveHeaders http.

Definition removeHeaders (http : nat) (arguments : list string) (w : world)
  : completion value * world :=
  let headers : option (list string) :=
    if (length arguments <=? 0)%nat then None else Some arguments in
  match headers with
  | None => (Throw (VError TypeError "This function should have at least 1 parameter"), w)
  | Some headers =>
      (* [Array.isArray(headers)] holds of every array *)
      (Normal VUndefined,
       axios.set_headers http
         (foldl (fun hs header => delete header hs) (axios.headers http w) headers) w)
  end.

(** [defaultTapInternal($http, serviceName, property, withMsgPack = false)]
    returns the closure [defaultTrap]. *)
Definition defaultTapInternal (http : nat) (serviceName : option string)
    (property : prop_key) (withMsgPack : option bool) : closure :=
  CDefaultTrap http serviceName property (default false withMsgPack).

Definition defaultTrap (http : nat) (serviceName : option string) (property : prop_key)
    (withMsgPack : bool) (arguments : list value) (w : world) : completion value * world :=
  let url := template serviceName +:+ "/" +:+ String_of_key property in
  let isPost := (0 <? length arguments)%nat in
  let data :=
    if withMsgPack then VBytes (serialize env (VArr arguments)) else VArr arguments in
  let '(promise, w') :=
    if isPost then axios.post env http url data w else axios.get env http url w in
  (Normal promise, w').

(** The [get] trap of the proxy. *)
Definition get (http : nat) (serviceName : option string) (withMsgPack : option bool)
    (target : object) (property : prop_key) (reciever : receiver)
  : completion trap_result :=
  if decide (property = KStr "addHeaders") then
    Normal (Made (addHeadersInternal http))
  else if decide (property = KStr "removeHeaders") then
    Normal (Made (removeHeadersInternal http))
  else
    let existing :=
      match Reflect_get target property reciever with
      | Normal v => v
      | Throw err => if instanceof_TypeError err then VNull else VUndefined
      end in
    Normal (found_or_made existing
              (defaultTapInternal http serviceName property withMsgPack)).

Definition handler (http : nat) (serviceName : option string) (withMsgPack : option bool)
  : ProxyHandler :=
  {| trap_get := Some (get http serviceName withMsgPack);
     trap_has := None; trap_ownKeys := None;
     trap_set := None; trap_deleteProperty := None |}.

(** The config [createService] passes to [axios.create]. *)
Definition axios_config (config : RemotingConfigParam) (axiosConfig : value)
  : gmap string value :=
  spread (js_and axiosConfig axiosConfig) ∪
  <["headers" := VObj (spread (js_and (of_bool (withMsgPack config)) (VObj msgpack_headers)))]>
    (<["baseURL" := of_string (baseURL config)]> ∅).

(** [createService(config, axiosConfig, baseService)]; [baseService] is
    a reference to the caller's object, [None] when left out. *)
Definition createService (config : RemotingConfigParam) (axiosConfig : value)
    (baseService : option nat) (w : world) : completion Proxy * world :=
  let '(target, w) :=
    match baseService with
    | Some t => (t, w)
    | None => alloc empty_object w
    end in
  let '(http, w) := axios.create (axios_config config axiosConfig) w in
  (Normal {| proxy_target := target;
             proxy_handler := handler http (serviceName config) (withMsgPack config) |},
   w).

(** Calling a function value. *)
Definition call (c : closure) (args : list value) (w : world)
  : option (completion value * world) :=
  match c with
  | CAddHeaders http => Some (addHeaders http args w)
  | CRemoveHeaders http => names ← strings_of args; Some (removeHeaders http names w)
  | CDefaultTrap http serviceName property withMsgPack =>
      Some (defaultTrap http serviceName property withMsgPack args w)
  | _ => None
  end.

End WithCollaborators.
End Index.

(** ** The revision of [index.ts] with interceptors and [createRequest] *)

Module Extended.
Section WithCollaborators.
Context (env : collaborators).

Definition addHeadersInternal (http : nat) : closure := CAddHeaders http.

Definition addHeaders (http : nat) (args : list value) (w : world)
  : completion value * world :=
  let headers := default VUndefined (args !! 0) in
  if negb (truthy headers) || negb (String.eqb (typeof headers) "object")
  then (Throw (VError TypeError
                 "this functioun should have one parameter and it must be an object"), w)
  else (Normal VUndefined,
        axios.set_headers http (spread headers ∪ axios.headers http w) w).

Definition removeHeadersInternal (http : nat) : closure := CRemoveHeaders http.

(** [removeHeaders(...headers)]: the rest parameter is an array. *)
Definition removeHeaders (http : nat) (headers : list string) (w : world)
  : completion value * world :=
  if negb (truthy (VArr (VStr <$> headers)))
  then (Throw (VError TypeError "This function should have at least 1 parameter"), w)
  else (Normal VUndefined,
        axios.set_headers http
          (foldl (fun hs header => delete header hs) (axios.headers http w) headers) w).

Definition addInterceptorInternal (http : nat) : closure := CAddInterceptor http.

Definition addInterceptor (http : nat) (args : list value) (w : world)
  : completion value * world :=
  let type := default VUndefined (args !! 0) in
  let onFulfilled := default VUndefined (args !! 1) in
  let onRejected := default VUndefined (args !! 2) in
  if negb (truthy onFulfilled) && negb (truthy onRejected)
  then (Throw (VError TypeError "No interceptor was provided"), w)
  else
    if strict_eq type "request" then
      let '(id, w') := axios.use http "request" onFulfilled onRejected w in (Normal id, w')
    else if strict_eq type "response" then
      let '(id, w') := axios.use http "response" onFulfilled onRejected w in (Normal id, w')
    else (Normal VUndefined, w).

Definition removeInterceptorInternal (http : nat) : closure := CRemoveInterceptor http.

(** [$http.interceptors[type]] is a computed member access: the phase
    is turned into a property key first. *)
Definition removeInterceptor (http : nat) (args : list value) (w : world)
  : completion value * world :=
  let type := default VUndefined (args !! 0) in
  let id := default VUndefined (args !! 1) in
  if String.eqb (ToString type) "request" then
    let '(r, w') := axios.eject http "request" id w in (Normal r, w')
  else if String.eqb (ToString type) "response" then
    let '(r, w') := axios.eject http "response" id w in (Normal r, w')
  else (Throw (VError TypeError "Cannot read properties of undefined"), w).

Definition createRequestInternal (http : nat) : closure := CCreateRequest http.

Definition createRequest (http : nat) (args : list value) (w : world)
  : completion value * world :=
  let config := default VUndefined (args !! 0) in
  let '(promise, w') := axios.request env http config w in
  (Normal promise, w').

Definition defaultTapInternal (http : nat) (serviceName : option string)
    (property : prop_key) (withMsgPack : option bool) : closure :=
  CDefaultTrap http serviceName property (default false withMsgPack).

(** The callback of [request.then] in [defaultTrap]. *)
Definition unpack (withMsgPack : bool) (result : value) : completion value :=
  if withMsgPack then
    cbind (get_field result "data") (fun packed =>
    cbind (deserialize env packed) (fun data =>
    Normal (VObj (<["data" := data]> (spread result)))))
  else Normal result.

Definition defaultTrap (http : nat) (serviceName : option string) (property : prop_key)
    (withMsgPack : bool) (args : list value) (w : world) : completion value * world :=
  let url := template serviceName +:+ "/" +:+ String_of_key property in
  let isPost := (0 <? length args)%nat in
  let '(request, w') :=
    if isPost then axios.post env http url (VArr args) w else axios.get env http url w in
  (Normal (promise_then request (unpack withMsgPack)), w').

(** The [get] trap of the proxy: a [switch] on the property. *)
Definition get (http : nat) (serviceName : option string) (withMsgPack : option bool)
    (target : object) (property : prop_key) (reciever : receiver)
  : completion trap_result :=
  if decide (property = KStr "addHeaders") then
    Normal (Made (addHeadersInternal http))
  else if decide (property = KStr "removeHeaders") then
    Normal (Made (removeHeadersInternal http))
  else if decide (property = KStr "addInterceptor") then
    Normal (Made (addInterceptorInternal http))
  else if decide (property = KStr "removeInterceptor") then
    Normal (Made (removeInterceptorInternal http))
  else if decide (property = KStr "createRequest") then
    Normal (Made (createRequestInternal http))
  else
    let existing :=
      match Reflect_get target property reciever with
      | Normal v => v
      | Throw err => VNull
      end in
    Normal (found_or_made existing
              (defaultTapInternal http serviceName property withMsgPack)).

Definition handler (http : nat) (serviceName : option string) (withMsgPack : option bool)
  : ProxyHandler :=
  {| trap_get := Some (get http serviceName withMsgPack);
     trap_has := None; trap_ownKeys := None;
     trap_set := None; trap_deleteProperty := None |}.

Definition arraybuffer : gmap string value := <["responseType" := VStr "arraybuffer"]> ∅.

Definition axios_config (config : RemotingConfigParam) (axiosConfig : value)
  : gmap string value :=
  spread (js_and axiosConfig axiosConfig) ∪
  (spread (js_and (of_bool (withMsgPack config)) (VObj arraybuffer)) ∪
   <["headers" := VObj (spread (js_and (of_bool (withMsgPack config)) (VObj msgpack_headers)))]>
     (<["baseURL" := of_string (baseURL config)]> ∅)).

Definition createService (config : RemotingConfigParam) (axiosConfig : value)
    (baseService : option nat) (w : world) : completion Proxy * world :=
  let '(target, w) :=
    match baseService with
    | Some t => (t, w)
    | None => alloc empty_object w
    end in
  let '(http, w) := axios.create (axios_config config axiosConfig) w in
  (Normal {| proxy_target := target;
             proxy_handler := handler http (serviceName config) (withMsgPack config) |},
   w).

Definition call (c : closure) (args : list value) (w : world)
  : option (completion value * world) :=
  match c with
  | CNative _ => None
  | CAddHeaders http => Some (addHeaders http args w)
  | CRemoveHeaders http => names ← strings_of args; Some (removeHeaders http names w)
  | CAddInterceptor http => Some (addInterceptor http args w)
  | CRemoveInterceptor http => Some (removeInterceptor http args w)
  | CCreateRequest http => Some (createRequest http args w)
  | CDefaultTrap http serviceName property withMsgPack =>
      Some (defaultTrap http serviceName property withMsgPack args w)
  end.

End WithCollaborators.
End Extended.

(** ** Vocabulary of the properties *)

(** The five control names of the specification. *)
Definition reserved : list string :=
  ["addHeaders"; "removeHeaders"; "addInterceptor"; "removeInterceptor"; "createRequest"].

Definition is_reserved (k : prop_key) : Prop := k ∈ KStr <$> reserved.

Global Instance is_reserved_dec k : Decision (is_reserved k).
Proof. unfold is_reserved. apply _. Defined.

(** The management function each control name stands for. *)
Definition management (name : string) (http : nat) : option closure :=
  if String.eqb name "addHeaders" then Some (CAddHeaders http)
  else if String.eqb name "removeHeaders" then Some (CRemoveHeaders http)
  else if String.eqb name "addInterceptor" then Some (CAddInterceptor http)
  else if String.eqb name "removeInterceptor" then Some (CRemoveInterceptor http)
  else if String.eqb name "createRequest" then Some (CCreateRequest http)
  else None.

(** A required string field that is left out or empty. *)
Definition absent_or_empty (field : option string) : Prop :=
  field = None \/ field = Some "".

(** The closure is the synthesized remote call of some property. *)
Definition synthesized (v : value) : Prop :=
  exists http serviceName property withMsgPack,
    v = VFun (CDefaultTrap http serviceName property withMsgPack).

(** The transport and codec doubles of the test suite: every request is
    fulfilled with the packed [{hello: "world"}], which is all the codec
    double can unpack. *)
Definition hello_world_packed : list Z :=
  [129; 165; 104; 101; 108; 108; 111; 165; 119; 111; 114; 108; 100]%Z.

Definition mock : collaborators :=
  {| serialize := fun _ => hello_world_packed;
     deserialize := fun packed =>
       match packed with
       | VBytes bs =>
           if decide (bs = hello_world_packed)
           then Normal (VObj (<["hello" := VStr "world"]> ∅))
           else Throw (VError (OtherError "Error") "Invalid data")
       | _ => Throw (VError (OtherError "Error") "Invalid data")
       end;
     respond := fun r =>
       (true,
        VObj (<["data" := VBytes hello_world_packed]>
                (<["url" := VStr match r with
                                 | Get _ url | Post _ url _ => url
                                 | Request _ _ => ""
                                 end]>
                   (<["status" := VNum 200]> ∅)))) |}.

Definition localhost (msgpack : option bool) : RemotingConfigParam :=
  {| baseURL := Some "http://localhost/"; serviceName := Some "IMyService";
     withMsgPack := msgpack |}.

(** A config of which both required fields are missing or empty. *)
Definition incomplete_config : RemotingConfigParam :=
  {| baseURL := None; serviceName := Some ""; withMsgPack := None |}.

(** What it would mean for a [createService] to reject such configs. *)
Definition rejects_incomplete_config
    (createService : RemotingConfigParam -> value -> option nat -> world ->
                     completion Proxy * world) : Prop :=
  forall config axiosConfig baseService w,
    absent_or_empty (baseURL config) \/ absent_or_empty (serviceName config) ->
    exists e, (createService config axiosConfig baseService w).1 = Throw e.

(** The world after [createService]: one more axios instance, and one
    more object when no base object was passed. *)
Definition created (config : gmap string value) (baseService : option nat) (w : world)
  : world :=
  {| objects := match baseService with
                | Some _ => objects w
                | None => objects w ++ [empty_object]
                end;
     https := https w ++
       [{| create_config := config;
           defaults_headers :=
             axios.merge_headers (spread (default VUndefined (config !! "headers")))
               axios.library_headers;
           request_chain := []; response_chain := [] |}];
     sent := sent w |}.

(** The synthesized call of a property, as the traps of a service made
    from [config] with the axios instance [http] make it. *)
Definition synthesized_for (http : nat) (config : RemotingConfigParam) (k : prop_key)
  : closure :=
  CDefaultTrap http (serviceName config) k (default false (withMsgPack config)).

(** The request a synthesized call hands to the transport. *)
Definition call_request (http : nat) (url : string) (args : list value) (body : value)
  : request :=
  match args with
  | [] => Get http url
  | _ :: _ => Post http url body
  end.

(** The argument of the [postSample] scenario, [{sample: "string"}]. *)
Definition sample : value := VObj (<["sample" := VStr "string"]> ∅).

(** A base object with a member named like a control name. *)
Definition own_createRequest : object := literal [("createRequest", VStr "mine")].

(** The base object of the test suite. *)
Definition existingservice : object :=
  literal [("someProperty", VStr "IExist");
           ("getSample", VFun (CNative "getSample"));
           ("postSample", VFun (CNative "postSample"))].

(** A base object whose getter [broken] throws a [RangeError]. *)
Definition throwing_getter : object :=
  {| own := <[KStr "broken" :=
                Accessor (Some (fun _ => Throw (VError (OtherError "RangeError") "boom")))
                  None true]> ∅;
     prototypes := [Object_prototype];
     extensible := true |}.

(** An instance of a class that keeps a private field and reads it in
    the getter [token] of its prototype: the getter works on the
    instance and throws a [TypeError] on anything else. *)
Definition with_private_field : object :=
  {| own := ∅;
     prototypes :=
       [<[KStr "token" :=
            Accessor (Some (fun this =>
                              match this with
                              | OnTarget => Normal (VStr "secret")
                              | OnProxy =>
                                  Throw (VError TypeError "Cannot read private member #token")
                              end)) None true]> ∅;
        Object_prototype];
     extensible := true |}.

(** The name is an own property that the engine pins: a non-writable,
    non-configurable data property, or a non-configurable accessor
    without a getter. *)
Definition is_locked (target : object) (k : prop_key) : bool :=
  match own target !! k with
  | Some (Data _ false false) | Some (Accessor None _ false) => true
  | _ => false
  end.

(** The base object takes a plain write under the name: the name is a
    writable own data property, or it is no own property of an
    extensible object that inherits it, if at all, as a writable data
    property. *)
Definition accepts_write (target : object) (k : prop_key) : bool :=
  match own target !! k with
  | Some (Data _ writable _) => writable
  | Some (Accessor _ _ _) => false
  | None =>
      extensible target &&
      match find_slot (prototypes target) k with
      | Some (Data _ writable _) => writable
      | Some (Accessor _ _ _) => false
      | None => true
      end
  end.

(** The own property under the name, if any, can be deleted. *)
Definition accepts_delete (target : object) (k : prop_key) : bool :=
  match own target !! k with
  | Some (Data _ _ configurable) | Some (Accessor _ _ configurable) => configurable
  | None => true
  end.

Definition is_primitive (v : value) : bool :=
  match v with
  | VUndefined | VNull | VBool _ | VNum _ | VStr _ => true
  | _ => false
  end.

Definition TypeError_of_addHeaders : value :=
  VError TypeError "this functioun should have one parameter and it must be an object".

(** A world with one axios instance that already has a default header. *)
Definition one_instance : world :=
  (axios.create (<["headers" := VObj (<["x-custom-header" := VStr "true"]> ∅)]> ∅)
     empty_world).2.

Definition TypeError_of_removeHeaders : value :=
  VError TypeError "This function should have at least 1 parameter".

(** * Properties *)

(** ** What [createService] returns *)

Lemma Index_createService_eq config axiosConfig baseService w :
  Index.createService config axiosConfig baseService w =
    (Normal {| proxy_target := default (length (objects w)) baseService;
               proxy_handler := Index.handler (length (https w)) (serviceName config)
                                  (withMsgPack config) |},
     created (Index.axios_config config axiosConfig) baseService w).
Proof. by destruct baseService. Qed.

Lemma Extended_createService_eq config axiosConfig baseService w :
  Extended.createService config axiosConfig baseService w =
    (Normal {| proxy_target := default (length (objects w)) baseService;
               proxy_handler := Extended.handler (length (https w)) (serviceName config)
                                  (withMsgPack config) |},
     created (Extended.axios_config config axiosConfig) baseService w).
Proof. by destruct baseService. Qed.

Lemma created_sent config baseService w : sent (created config baseService w) = sent w.
Proof. done. Qed.

Lemma created_instance config baseService w :
  https (created config baseService w) !! length (https w) =
    Some {| create_config := config;
            defaults_headers :=
              axios.merge_headers (spread (default VUndefined (config !! "headers")))
                axios.library_headers;
            request_chain := []; response_chain := [] |}.
Proof. cbn. by rewrite lookup_app_r, Nat.sub_diag. Qed.

(** C1, as stated, fails: with [baseURL] left out and an empty
    [serviceName], both revisions of [createService] return a proxy, and
    its call of [getSample] goes to the malformed URL ["/getSample"]. *)
Lemma createService_accepts_incomplete_config :
  (absent_or_empty (baseURL incomplete_config) /\
   absent_or_empty (serviceName incomplete_config)) /\
  (exists p w,
     Index.createService incomplete_config VUndefined None empty_world = (Normal p, w) /\
     (fun r => sent r.2) <$> invoke (Index.call mock) p (KStr "getSample") [] w =
       Some [Get 0 "/getSample"]) /\
  (exists p w,
     Extended.createService incomplete_config VUndefined None empty_world = (Normal p, w) /\
     (fun r => sent r.2) <$> invoke (Extended.call mock) p (KStr "getSample") [] w =
       Some [Get 0 "/getSample"]) /\
  ~ rejects_incomplete_config Index.createService /\
  ~ rejects_incomplete_config Extended.createService.
Proof.
  split; [split; [by left | by right] |].
  split; [eexists _, _; split; [reflexivity | by vm_compute] |].
  split; [eexists _, _; split; [reflexivity | by vm_compute] |].
  split; intros H;
    destruct (H incomplete_config VUndefined None empty_world) as [e He];
    try (left; by left); discriminate He.
Qed.

(** Without an axios config of the caller, [baseURL] reaches
    [axios.create] as given. *)
Lemma axios_config_baseURL config :
  Index.axios_config config VUndefined !! "baseURL" = Some (of_string (baseURL config)) /\
  Extended.axios_config config VUndefined !! "baseURL" = Some (of_string (baseURL config)).
Proof.
  unfold Index.axios_config, Extended.axios_config. cbn.
  rewrite !(left_id_L ∅ (∪)).
  split; [by rewrite lookup_insert_ne, lookup_insert_eq |].
  rewrite lookup_union_r; [by rewrite lookup_insert_ne, lookup_insert_eq |].
  by destruct (withMsgPack config) as [[]|].
Qed.

(** C1, amended: [createService] validates neither [baseURL] nor
    [serviceName]. For every config it returns a proxy, sends nothing,
    creates the axios instance from the fields as given, and its
    synthesized calls build the URL from [serviceName] as given. *)
Theorem createService_validates_nothing :
  forall config axiosConfig baseService w0,
    (exists p w,
       Index.createService config axiosConfig baseService w0 = (Normal p, w) /\
       sent w = sent w0 /\
       proxy_handler p =
         Index.handler (length (https w0)) (serviceName config) (withMsgPack config) /\
       create_config (axios.instance (length (https w0)) w) =
         Index.axios_config config axiosConfig /\
       forall env P mp w',
         sent (Index.defaultTrap env (length (https w0)) (serviceName config) P mp [] w').2 =
           sent w' ++ [Get (length (https w0))
                         (template (serviceName config) +:+ "/" +:+ String_of_key P)]) /\
    (exists p w,
       Extended.createService config axiosConfig baseService w0 = (Normal p, w) /\
       sent w = sent w0 /\
       proxy_handler p =
         Extended.handler (length (https w0)) (serviceName config) (withMsgPack config) /\
       create_config (axios.instance (length (https w0)) w) =
         Extended.axios_config config axiosConfig /\
       forall env P mp w',
         sent (Extended.defaultTrap env (length (https w0)) (serviceName config) P mp [] w').2 =
           sent w' ++ [Get (length (https w0))
                         (template (serviceName config) +:+ "/" +:+ String_of_key P)]).
Proof.
  intros config axiosConfig baseService w0. split.
  - eexists _, _. split; [apply Index_createService_eq |].
    repeat split; try done.
    unfold axios.instance. by rewrite created_instance.
  - eexists _, _. split; [apply Extended_createService_eq |].
    repeat split; try done.
    unfold axios.instance. by rewrite created_instance.
Qed.

(** ** The [get] trap *)

Lemma reserved_names k :
  is_reserved k <->
    k = KStr "addHeaders" \/ k = KStr "removeHeaders" \/ k = KStr "addInterceptor" \/
    k = KStr "removeInterceptor" \/ k = KStr "createRequest".
Proof.
  unfold is_reserved, reserved. cbn.
  rewrite !elem_of_cons, elem_of_nil. tauto.
Qed.

Lemma Index_get_other http serviceName withMsgPack target property this :
  property <> KStr "addHeaders" -> property <> KStr "removeHeaders" ->
  Index.get http serviceName withMsgPack target property this =
    Normal (found_or_made
              match Reflect_get target property this with
              | Normal v => v
              | Throw err => if instanceof_TypeError err then VNull else VUndefined
              end
              (CDefaultTrap http serviceName property (default false withMsgPack))).
Proof. intros. unfold Index.get. by rewrite !decide_False. Qed.

Lemma Extended_get_other http serviceName withMsgPack target property this :
  ~ is_reserved property ->
  Extended.get http serviceName withMsgPack target property this =
    Normal (found_or_made
              match Reflect_get target property this with
              | Normal v => v
              | Throw err => VNull
              end
              (CDefaultTrap http serviceName property (default false withMsgPack))).
Proof.
  rewrite reserved_names. intros. unfold Extended.get.
  rewrite !decide_False; [done | tauto..].
Qed.

Lemma Reflect_get_absent target property this :
  lookup_slot target property = None -> Reflect_get target property this = Normal VUndefined.
Proof. unfold Reflect_get. by intros ->. Qed.

Lemma absent_is_not_own target k : lookup_slot target k = None -> own target !! k = None.
Proof. unfold lookup_slot. cbn. by destruct (own target !! k). Qed.

Lemma respects_invariant_unlocked target k r :
  is_locked target k = false -> respects_invariant target k r = true.
Proof.
  unfold is_locked, respects_invariant.
  by destruct (own target !! k) as [[v [] [] | [g |] s []] |].
Qed.

Lemma absent_is_not_locked target k : lookup_slot target k = None -> is_locked target k = false.
Proof. intros H. unfold is_locked. by rewrite (absent_is_not_own _ _ H). Qed.

(** Reading a proxy made by [createService] runs the [get] trap on the
    base object as it is in the world at that moment, with the proxy as
    receiver. *)
Lemma Index_proxy_get config axiosConfig baseService w0 p w1 k w :
  Index.createService config axiosConfig baseService w0 = (Normal p, w1) ->
  proxy_get p k w =
    returned (Index.get (length (https w0)) (serviceName config) (withMsgPack config)
                (object_at (proxy_target p) w) k OnProxy).
Proof. rewrite Index_createService_eq. by intros [= <- _]. Qed.

Lemma Extended_proxy_get config axiosConfig baseService w0 p w1 k w :
  Extended.createService config axiosConfig baseService w0 = (Normal p, w1) ->
  proxy_get p k w =
    returned (Extended.get (length (https w0)) (serviceName config) (withMsgPack config)
                (object_at (proxy_target p) w) k OnProxy).
Proof. rewrite Extended_createService_eq. by intros [= <- _]. Qed.

Lemma Index_proxy_read config axiosConfig baseService w0 p w1 k w :
  Index.createService config axiosConfig baseService w0 = (Normal p, w1) ->
  proxy_read p k w =
    checked (object_at (proxy_target p) w) k
      (Index.get (length (https w0)) (serviceName config) (withMsgPack config)
         (object_at (proxy_target p) w) k OnProxy).
Proof. rewrite Index_createService_eq. by intros [= <- _]. Qed.

Lemma Extended_proxy_read config axiosConfig baseService w0 p w1 k w :
  Extended.createService config axiosConfig baseService w0 = (Normal p, w1) ->
  proxy_read p k w =
    checked (object_at (proxy_target p) w) k
      (Extended.get (length (https w0)) (serviceName config) (withMsgPack config)
         (object_at (proxy_target p) w) k OnProxy).
Proof. rewrite Extended_createService_eq. by intros [= <- _]. Qed.

(** The read of a name that is absent from the base object, in either
    revision. *)
Lemma proxy_read_absent createService config axiosConfig baseService w0 p w1 k w :
  createService = Index.createService \/ createService = Extended.createService ->
  createService config axiosConfig baseService w0 = (Normal p, w1) ->
  ~ is_reserved k ->
  lookup_slot (object_at (proxy_target p) w) k = None ->
  proxy_read p k w = Normal (VFun (synthesized_for (length (https w0)) config k)).
Proof.
  intros [-> | ->] Hcreate Hk Habs.
  - assert (k <> KStr "addHeaders" /\ k <> KStr "removeHeaders") as [? ?].
    { rewrite reserved_names in Hk. split; intros ->; tauto. }
    rewrite (Index_proxy_read _ _ _ _ _ _ _ _ Hcreate), Index_get_other by done.
    rewrite (Reflect_get_absent _ _ _ Habs). cbn.
    by rewrite respects_invariant_unlocked by by apply absent_is_not_locked.
  - rewrite (Extended_proxy_read _ _ _ _ _ _ _ _ Hcreate), Extended_get_other by done.
    rewrite (Reflect_get_absent _ _ _ Habs). cbn.
    by rewrite respects_invariant_unlocked by by apply absent_is_not_locked.
Qed.

(** ** Synthesized calls *)

Lemma Index_defaultTrap_eq env http serviceName property withMsgPack args w :
  Index.defaultTrap env http serviceName property withMsgPack args w =
    (let r := call_request http (template serviceName +:+ "/" +:+ String_of_key property) args
                (if withMsgPack then VBytes (serialize env (VArr args)) else VArr args) in
     (Normal (VPromise (respond env r).1 (respond env r).2),
      {| objects := objects w; https := https w; sent := sent w ++ [r] |})).
Proof.
  unfold Index.defaultTrap, axios.post, axios.get, axios.dispatch.
  destruct args; cbn; by destruct (respond env _).
Qed.

Lemma Extended_defaultTrap_eq env http serviceName property withMsgPack args w :
  Extended.defaultTrap env http serviceName property withMsgPack args w =
    (let r := call_request http (template serviceName +:+ "/" +:+ String_of_key property) args
                (VArr args) in
     (Normal (promise_then (VPromise (respond env r).1 (respond env r).2)
                (Extended.unpack env withMsgPack)),
      {| objects := objects w; https := https w; sent := sent w ++ [r] |})).
Proof.
  unfold Extended.defaultTrap, axios.post, axios.get, axios.dispatch.
  destruct args; cbn; by destruct (respond env _).
Qed.

Lemma invoke_function call p k args w c :
  proxy_read p k w = Normal (VFun c) -> invoke call p k args w = call c args w.
Proof. unfold invoke. by intros ->. Qed.

(** C2, as stated, fails in [src/index.ts] when [withMsgPack] is set:
    the body handed to [post] is the packed bytes, not the sequence. *)
Lemma packed_body_is_not_the_sequence :
  exists p w,
    Index.createService (localhost (Some true)) VUndefined None empty_world = (Normal p, w) /\
    ~ is_reserved (KStr "postSample") /\
    lookup_slot (object_at (proxy_target p) w) (KStr "postSample") = None /\
    (fun r => sent r.2) <$> invoke (Index.call mock) p (KStr "postSample") [sample] w =
      Some [Post 0 "IMyService/postSample" (VBytes hello_world_packed)] /\
    Post 0 "IMyService/postSample" (VBytes hello_world_packed) <>
      Post 0 "IMyService/postSample" (VArr [sample]).
Proof.
  eexists _, _. split; [reflexivity |].
  split; [compute_done |].
  split; [by vm_compute |]. split; [by vm_compute | discriminate].
Qed.

(** C2, amended: for a name that is not reserved and not present on the
    base object, the call with no argument hands a GET without body for
    [serviceName/P] to the transport [createService] made, and the call
    with arguments a POST for the same URL whose body is the sequence of
    the arguments; [src/index.ts] with [withMsgPack] hands over that
    sequence packed by the codec. One argument is a one-element
    sequence. *)
Theorem synthesized_call_request
    env config axiosConfig baseService w0 p_index w_index p_ext w_ext P args w :
  Index.createService config axiosConfig baseService w0 = (Normal p_index, w_index) ->
  Extended.createService config axiosConfig baseService w0 = (Normal p_ext, w_ext) ->
  ~ is_reserved P ->
  lookup_slot (object_at (proxy_target p_index) w) P = None ->
  lookup_slot (object_at (proxy_target p_ext) w) P = None ->
  (create_config <$> https w_index !! length (https w0) =
     Some (Index.axios_config config axiosConfig) /\
   exists promise w',
     invoke (Index.call env) p_index P args w = Some (Normal promise, w') /\
     sent w' = sent w ++
       [match args with
        | [] => Get (length (https w0))
                  (template (serviceName config) +:+ "/" +:+ String_of_key P)
        | _ :: _ => Post (length (https w0))
                  (template (serviceName config) +:+ "/" +:+ String_of_key P)
                  (if default false (withMsgPack config)
                   then VBytes (serialize env (VArr args))
                   else VArr args)
        end]) /\
  (create_config <$> https w_ext !! length (https w0) =
     Some (Extended.axios_config config axiosConfig) /\
   exists promise w',
     invoke (Extended.call env) p_ext P args w = Some (Normal promise, w') /\
     sent w' = sent w ++
       [match args with
        | [] => Get (length (https w0))
                  (template (serviceName config) +:+ "/" +:+ String_of_key P)
        | _ :: _ => Post (length (https w0))
                  (template (serviceName config) +:+ "/" +:+ String_of_key P)
                  (VArr args)
        end]).
Proof.
  intros Hindex Hext HP Habs_index Habs_ext.
  assert (P <> KStr "addHeaders" /\ P <> KStr "removeHeaders") as [? ?].
  { rewrite reserved_names in HP. split; intros ->; tauto. }
  split.
  - split.
    { rewrite Index_createService_eq in Hindex. injection Hindex as _ <-.
      by rewrite created_instance. }
    erewrite invoke_function;
      [| exact (proxy_read_absent _ _ _ _ _ _ _ _ _ (or_introl eq_refl) Hindex HP Habs_index)].
    cbn. rewrite Index_defaultTrap_eq. eexists _, _. split; [reflexivity |].
    by destruct args.
  - split.
    { rewrite Extended_createService_eq in Hext. injection Hext as _ <-.
      by rewrite created_instance. }
    erewrite invoke_function;
      [| exact (proxy_read_absent _ _ _ _ _ _ _ _ _ (or_intror eq_refl) Hext HP Habs_ext)].
    cbn. rewrite Extended_defaultTrap_eq. eexists _, _. split; [reflexivity |].
    by destruct args.
Qed.

Lemma synthesized_call_request_witness :
  (exists p w,
     Index.createService (localhost None) VUndefined None empty_world = (Normal p, w) /\
     exists promise w',
       invoke (Index.call mock) p (KStr "postSample") [sample] w =
         Some (Normal promise, w') /\
       sent w' = [Post 0 "IMyService/postSample" (VArr [sample])]) /\
  (exists p w,
     Extended.createService (localhost None) VUndefined None empty_world = (Normal p, w) /\
     exists promise w',
       invoke (Extended.call mock) p (KStr "postSample") [sample] w =
         Some (Normal promise, w') /\
       sent w' = [Post 0 "IMyService/postSample" (VArr [sample])]).
Proof.
  pose proof (synthesized_call_request mock (localhost None) VUndefined None empty_world
                _ _ _ _ (KStr "postSample") [sample]
                (created (Index.axios_config (localhost None) VUndefined) None empty_world)
                eq_refl eq_refl) as H.
  destruct H as [[_ Hindex] [_ Hext]];
    [compute_done | by vm_compute | by vm_compute |].
  split; eexists _, _; (split; [reflexivity |]).
  - exact Hindex.
  - exact Hext.
Defined.

(** ** Control names *)

Lemma checked_made target k c :
  checked target k (Normal (Made c)) =
    if is_locked target k then Throw TypeError_of_proxy else Normal (VFun c).
Proof.
  unfold checked, respects_invariant, is_locked.
  by destruct (own target !! k) as [[v [] [] | [g |] s []] |].
Qed.

Lemma checked_found target k v this :
  Reflect_get target k this = Normal v -> nullish v = false ->
  checked target k (Normal (Found v)) = Normal v.
Proof.
  unfold checked, respects_invariant, Reflect_get, lookup_slot. cbn.
  destruct (own target !! k) as [[v' [] [] | [g |] s []] |]; try done.
  by intros [= <-].
Qed.

(** C3, as stated, fails in [src/index.ts]: [createRequest] is no control
    name there. The read yields the base object's member, and a
    synthesized call when the base object has none. *)
Lemma Index_createRequest_is_not_reserved :
  "createRequest" ∈ reserved /\
  management "createRequest" 0 = Some (CCreateRequest 0) /\
  (exists p w,
     Index.createService (localhost None) VUndefined (Some 0)
       (alloc own_createRequest empty_world).2 = (Normal p, w) /\
     proxy_read p (KStr "createRequest") w = Normal (VStr "mine") /\
     proxy_read p (KStr "createRequest") w <> Normal (VFun (CCreateRequest 0))) /\
  (exists p w,
     Index.createService (localhost None) VUndefined None empty_world = (Normal p, w) /\
     proxy_read p (KStr "createRequest") w =
       Normal (VFun (CDefaultTrap 0 (Some "IMyService") (KStr "createRequest") false)) /\
     synthesized (VFun (CDefaultTrap 0 (Some "IMyService") (KStr "createRequest") false))).
Proof.
  split; [compute_done |]. split; [done |].
  split; eexists _, _; (split; [reflexivity |]).
  - split; [by vm_compute | by vm_compute].
  - split; [by vm_compute | by eexists _, _, _, _].
Qed.

Lemma management_not_synthesized name http c :
  management name http = Some c -> ~ synthesized (VFun c).
Proof.
  unfold management. intros H (h & s & k & m & Heq).
  repeat (case_match; [by simplify_eq |]). done.
Qed.

Lemma Extended_get_reserved http serviceName withMsgPack target name this :
  name ∈ reserved ->
  exists c, management name http = Some c /\
    Extended.get http serviceName withMsgPack target (KStr name) this = Normal (Made c).
Proof.
  unfold reserved. rewrite !elem_of_cons, elem_of_nil.
  intros H. destruct_or!; subst; try done; by eexists.
Qed.

(** C3, amended: in the revision with interceptors, the [get] trap
    answers any of the five control names with its management function,
    closed over the axios instance [createService] made, whatever the
    base object holds, and never with a synthesized call; the read of
    the proxy yields that function, unless the base object has the name
    as an own property that the engine pins (see [is_locked]: a
    non-writable, non-configurable data property, as a frozen object
    has, or a non-configurable accessor without a getter): then the
    engine refuses what the trap returned and the read throws a
    [TypeError]. In [src/index.ts] this holds of [addHeaders] and
    [removeHeaders], the only control names there. *)
Theorem control_names_resolve
    config axiosConfig baseService w0 p_index w_index p_ext w_ext name w :
  Index.createService config axiosConfig baseService w0 = (Normal p_index, w_index) ->
  Extended.createService config axiosConfig baseService w0 = (Normal p_ext, w_ext) ->
  name ∈ reserved ->
  (exists c,
     management name (length (https w0)) = Some c /\
     ~ synthesized (VFun c) /\
     proxy_get p_ext (KStr name) w = Normal (VFun c) /\
     proxy_read p_ext (KStr name) w =
       if is_locked (object_at (proxy_target p_ext) w) (KStr name)
       then Throw TypeError_of_proxy
       else Normal (VFun c)) /\
  proxy_read p_index (KStr "addHeaders") w =
    (if is_locked (object_at (proxy_target p_index) w) (KStr "addHeaders")
     then Throw TypeError_of_proxy
     else Normal (VFun (CAddHeaders (length (https w0))))) /\
  proxy_read p_index (KStr "removeHeaders") w =
    (if is_locked (object_at (proxy_target p_index) w) (KStr "removeHeaders")
     then Throw TypeError_of_proxy
     else Normal (VFun (CRemoveHeaders (length (https w0))))) /\
  create_config <$> https w_index !! length (https w0) =
    Some (Index.axios_config config axiosConfig) /\
  create_config <$> https w_ext !! length (https w0) =
    Some (Extended.axios_config config axiosConfig).
Proof.
  intros Hindex Hext Hname.
  split; [| split; [| split; [| split]]].
  - rewrite (Extended_proxy_get _ _ _ _ _ _ _ _ Hext),
      (Extended_proxy_read _ _ _ _ _ _ _ _ Hext).
    destruct (Extended_get_reserved (length (https w0)) (serviceName config)
                (withMsgPack config) (object_at (proxy_target p_ext) w) name OnProxy Hname)
      as (c & Hc & Hget).
    exists c. rewrite Hget, checked_made. eauto using management_not_synthesized.
  - rewrite (Index_proxy_read _ _ _ _ _ _ _ _ Hindex). apply checked_made.
  - rewrite (Index_proxy_read _ _ _ _ _ _ _ _ Hindex). apply checked_made.
  - rewrite Index_createService_eq in Hindex. injection Hindex as _ <-.
    by rewrite created_instance.
  - rewrite Extended_createService_eq in Hext. injection Hext as _ <-.
    by rewrite created_instance.
Qed.

Lemma control_names_resolve_witness :
  (exists p w,
     Extended.createService (localhost None) VUndefined (Some 0)
       (alloc own_createRequest empty_world).2 = (Normal p, w) /\
     proxy_read p (KStr "createRequest") w = Normal (VFun (CCreateRequest 0))) /\
  (exists p w,
     Extended.createService (localhost None) VUndefined (Some 0)
       (alloc (frozen [("createRequest", VStr "mine")]) empty_world).2 = (Normal p, w) /\
     proxy_read p (KStr "createRequest") w = Throw TypeError_of_proxy).
Proof.
  split.
  - destruct (control_names_resolve (localhost None) VUndefined (Some 0)
                (alloc own_createRequest empty_world).2 _ _ _ _ "createRequest"
                (created (Extended.axios_config (localhost None) VUndefined) (Some 0)
                   (alloc own_createRequest empty_world).2)
                eq_refl eq_refl ltac:(compute_done))
      as [(c & Hc & _ & _ & Hread) _].
    eexists _, _. split; [reflexivity |].
    injection Hc as <-. exact Hread.
  - destruct (control_names_resolve (localhost None) VUndefined (Some 0)
                (alloc (frozen [("createRequest", VStr "mine")]) empty_world).2
                _ _ _ _ "createRequest"
                (created (Extended.axios_config (localhost None) VUndefined) (Some 0)
                   (alloc (frozen [("createRequest", VStr "mine")]) empty_world).2)
                eq_refl eq_refl ltac:(compute_done))
      as [(c & _ & _ & _ & Hread) _].
    eexists _, _. split; [reflexivity |]. exact Hread.
Defined.

(** ** Members of the base object *)

(** The read of a name that is not reserved, in either revision: what
    [Reflect.get] gives with the proxy as receiver, unless that is
    [null], [undefined] or an exception; then the synthesized call, which
    the engine refuses for a locked property. *)
Lemma proxy_read_other createService config axiosConfig baseService w0 p w1 k w :
  createService = Index.createService \/ createService = Extended.createService ->
  createService config axiosConfig baseService w0 = (Normal p, w1) ->
  ~ is_reserved k ->
  proxy_read p k w =
    match Reflect_get (object_at (proxy_target p) w) k OnProxy with
    | Normal v =>
        if nullish v
        then if is_locked (object_at (proxy_target p) w) k
             then Throw TypeError_of_proxy
             else Normal (VFun (synthesized_for (length (https w0)) config k))
        else Normal v
    | Throw _ =>
        if is_locked (object_at (proxy_target p) w) k
        then Throw TypeError_of_proxy
        else Normal (VFun (synthesized_for (length (https w0)) config k))
    end.
Proof.
  intros [-> | ->] Hcreate Hk.
  - assert (k <> KStr "addHeaders" /\ k <> KStr "removeHeaders") as [? ?].
    { rewrite reserved_names in Hk. split; intros ->; tauto. }
    rewrite (Index_proxy_read _ _ _ _ _ _ _ _ Hcreate), Index_get_other by done.
    unfold found_or_made.
    destruct (Reflect_get _ _ _) as [v | e] eqn:Hget.
    + destruct (nullish v) eqn:Hv; [apply checked_made | by eapply checked_found].
    + destruct (instanceof_TypeError e); apply checked_made.
  - rewrite (Extended_proxy_read _ _ _ _ _ _ _ _ Hcreate), Extended_get_other by done.
    unfold found_or_made.
    destruct (Reflect_get _ _ _) as [v | e] eqn:Hget.
    + destruct (nullish v) eqn:Hv; [apply checked_made | by eapply checked_found].
    + apply checked_made.
Qed.

Lemma throwing_lookup_is_not_locked target k this e :
  Reflect_get target k this = Throw e -> is_locked target k = false.
Proof.
  unfold Reflect_get, lookup_slot, is_locked. cbn.
  by destruct (own target !! k) as [[v [] [] | [g |] s []] |].
Qed.

Lemma same_target config axiosConfig baseService w0 p_index w_index p_ext w_ext :
  Index.createService config axiosConfig baseService w0 = (Normal p_index, w_index) ->
  Extended.createService config axiosConfig baseService w0 = (Normal p_ext, w_ext) ->
  proxy_target p_ext = proxy_target p_index.
Proof.
  rewrite Index_createService_eq, Extended_createService_eq. intros. by simplify_eq.
Qed.

(** C4, as stated, fails for a member that is a getter in need of its
    own [this]: the base object holds a value under the name, but the
    trap reads with the proxy as receiver, the getter throws there, and
    the read of the proxy yields the synthesized call. *)
Lemma getter_is_read_on_the_proxy :
  ~ is_reserved (KStr "token") /\
  Reflect_get with_private_field (KStr "token") OnTarget = Normal (VStr "secret") /\
  nullish (VStr "secret") = false /\
  (exists p w,
     Index.createService (localhost None) VUndefined (Some 0)
       (alloc with_private_field empty_world).2 = (Normal p, w) /\
     object_at (proxy_target p) w = with_private_field /\
     proxy_read p (KStr "token") w =
       Normal (VFun (CDefaultTrap 0 (Some "IMyService") (KStr "token") false))) /\
  (exists p w,
     Extended.createService (localhost None) VUndefined (Some 0)
       (alloc with_private_field empty_world).2 = (Normal p, w) /\
     object_at (proxy_target p) w = with_private_field /\
     proxy_read p (KStr "token") w =
       Normal (VFun (CDefaultTrap 0 (Some "IMyService") (KStr "token") false))) /\
  Normal (VFun (CDefaultTrap 0 (Some "IMyService") (KStr "token") false)) <>
    Normal (VStr "secret").
Proof.
  split; [compute_done |]. split; [by vm_compute |]. split; [done |].
  split; [| split; [| discriminate]];
    eexists _, _; (split; [reflexivity |]); split; by vm_compute.
Qed.

(** C4, amended: for a name that is not reserved, whenever the base
    object, in the state it has at that read and read as the trap reads
    it (with the proxy as receiver), yields a value other than [null]
    and [undefined] under the name, the proxy of either revision yields
    that value as it is; so it does for every data property holding such
    a value. In a state in which the name is absent the same proxy
    yields, without throwing, the synthesized call. Nothing is kept from
    one read to the next. *)
Theorem base_members_take_precedence
    config axiosConfig baseService w0 p_index w_index p_ext w_ext P :
  Index.createService config axiosConfig baseService w0 = (Normal p_index, w_index) ->
  Extended.createService config axiosConfig baseService w0 = (Normal p_ext, w_ext) ->
  ~ is_reserved P ->
  proxy_target p_ext = proxy_target p_index /\
  (forall w v,
     Reflect_get (object_at (proxy_target p_index) w) P OnProxy = Normal v ->
     nullish v = false ->
     proxy_read p_index P w = Normal v /\ proxy_read p_ext P w = Normal v) /\
  (forall w v writable configurable,
     lookup_slot (object_at (proxy_target p_index) w) P = Some (Data v writable configurable) ->
     nullish v = false ->
     proxy_read p_index P w = Normal v /\ proxy_read p_ext P w = Normal v) /\
  (forall w,
     lookup_slot (object_at (proxy_target p_index) w) P = None ->
     proxy_read p_index P w =
       Normal (VFun (CDefaultTrap (length (https w0)) (serviceName config) P
                       (default false (withMsgPack config)))) /\
     proxy_read p_ext P w =
       Normal (VFun (CDefaultTrap (length (https w0)) (serviceName config) P
                       (default false (withMsgPack config))))).
Proof.
  intros Hindex Hext HP.
  pose proof (same_target _ _ _ _ _ _ _ _ Hindex Hext) as Htarget.
  split; [done |].
  assert (forall w v,
            Reflect_get (object_at (proxy_target p_index) w) P OnProxy = Normal v ->
            nullish v = false ->
            proxy_read p_index P w = Normal v /\ proxy_read p_ext P w = Normal v) as Hheld.
  { intros w v Hget Hv.
    rewrite (proxy_read_other _ _ _ _ _ _ _ _ w (or_introl eq_refl) Hindex HP).
    rewrite (proxy_read_other _ _ _ _ _ _ _ _ w (or_intror eq_refl) Hext HP).
    by rewrite Htarget, Hget, Hv. }
  split; [exact Hheld |]. split.
  - intros w v writable configurable Hslot Hv. apply Hheld; [| done].
    unfold Reflect_get. by rewrite Hslot.
  - intros w Habs. split.
    + exact (proxy_read_absent _ _ _ _ _ _ _ _ _ (or_introl eq_refl) Hindex HP Habs).
    + rewrite <- Htarget in Habs.
      exact (proxy_read_absent _ _ _ _ _ _ _ _ _ (or_intror eq_refl) Hext HP Habs).
Qed.

Lemma base_members_take_precedence_witness :
  exists p w,
    Index.createService (localhost None) VUndefined (Some 0)
      (alloc empty_object empty_world).2 = (Normal p, w) /\
    proxy_read p (KStr "someProperty") w =
      Normal (VFun (CDefaultTrap 0 (Some "IMyService") (KStr "someProperty") false)) /\
    proxy_read p (KStr "someProperty") (store 0 existingservice w) = Normal (VStr "IExist").
Proof.
  destruct (base_members_take_precedence (localhost None) VUndefined (Some 0)
              (alloc empty_object empty_world).2 _ _ _ _ (KStr "someProperty")
              eq_refl eq_refl ltac:(compute_done))
    as (_ & Hheld & _ & Habsent).
  eexists _, _. split; [reflexivity |]. split.
  - apply Habsent. by vm_compute.
  - eapply Hheld; by vm_compute.
Defined.

(** C9, as stated, fails on a frozen base object with a [null] member:
    the trap answers with the synthesized call, the engine refuses it
    for the pinned property, and the read throws in both revisions. *)
Lemma frozen_null_member_throws :
  ~ is_reserved (KStr "gone") /\
  (exists p w,
     Index.createService (localhost None) VUndefined (Some 0)
       (alloc (frozen [("gone", VNull)]) empty_world).2 = (Normal p, w) /\
     proxy_read p (KStr "gone") w = Throw TypeError_of_proxy) /\
  (exists p w,
     Extended.createService (localhost None) VUndefined (Some 0)
       (alloc (frozen [("gone", VNull)]) empty_world).2 = (Normal p, w) /\
     proxy_read p (KStr "gone") w = Throw TypeError_of_proxy).
Proof.
  split; [compute_done |].
  split; eexists _, _; (split; [reflexivity | by vm_compute]).
Qed.

(** C9, amended: the [get] trap of either revision never throws,
    whatever the name and the state of the base object: an exception
    raised by the lookup on the base object is suppressed in it, and for
    a name that is not reserved the read then yields the synthesized
    call. The read of the proxy is what the trap returned, except for a
    name that the base object has as an own property that the engine
    pins (see [is_locked]: a non-writable, non-configurable data
    property, as a frozen object has, or a non-configurable accessor
    without a getter): a read can throw only there, with the
    [TypeError] of the engine. *)
Theorem proxy_get_never_throws
    config axiosConfig baseService w0 p_index w_index p_ext w_ext :
  Index.createService config axiosConfig baseService w0 = (Normal p_index, w_index) ->
  Extended.createService config axiosConfig baseService w0 = (Normal p_ext, w_ext) ->
  (forall p, p = p_index \/ p = p_ext ->
     (forall k w, exists r, proxy_get p k w = Normal r) /\
     (forall k w,
        is_locked (object_at (proxy_target p) w) k = false ->
        proxy_read p k w = proxy_get p k w) /\
     (forall k w e,
        proxy_read p k w = Throw e ->
        e = TypeError_of_proxy /\ is_locked (object_at (proxy_target p) w) k = true) /\
     (forall P e w,
        ~ is_reserved P ->
        Reflect_get (object_at (proxy_target p) w) P OnProxy = Throw e ->
        proxy_read p P w =
          Normal (VFun (CDefaultTrap (length (https w0)) (serviceName config) P
                          (default false (withMsgPack config)))))).
Proof.
  intros Hindex Hext p Hp.
  assert (exists createService,
            (createService = Index.createService \/ createService = Extended.createService) /\
            exists w1, createService config axiosConfig baseService w0 = (Normal p, w1))
    as (createService & Hrev & w1 & Hcreate).
  { destruct Hp as [-> | ->]; eexists; (split; [| by eexists]); auto. }
  assert (forall k w, exists r,
            trap_get (proxy_handler p) = Some r /\
            exists result, r (object_at (proxy_target p) w) k OnProxy = Normal result)
    as Htrap.
  { intros k w. destruct Hrev as [-> | ->];
      [rewrite Index_createService_eq in Hcreate
      | rewrite Extended_createService_eq in Hcreate];
      injection Hcreate as <- _; cbn; eexists; (split; [reflexivity |]).
    - unfold Index.get. repeat case_decide; by eexists.
    - unfold Extended.get. repeat case_decide; by eexists. }
  split; [| split; [| split]].
  - intros k w. destruct (Htrap k w) as (trap & Htrap_get & result & Hresult).
    unfold proxy_get. rewrite Htrap_get, Hresult. by eexists.
  - intros k w Hunlocked. destruct (Htrap k w) as (trap & Htrap_get & result & Hresult).
    unfold proxy_read, proxy_get. rewrite Htrap_get, Hresult. cbn.
    by rewrite respects_invariant_unlocked.
  - intros k w e. destruct (Htrap k w) as (trap & Htrap_get & result & Hresult).
    unfold proxy_read. rewrite Htrap_get, Hresult. cbn.
    destruct (is_locked (object_at (proxy_target p) w) k) eqn:Hlocked.
    + destruct (respects_invariant _ _ _); [done |]. by intros [= <-].
    + by rewrite respects_invariant_unlocked.
  - intros P e w HP Hthrow.
    rewrite (proxy_read_other _ _ _ _ _ _ _ _ w Hrev Hcreate HP), Hthrow.
    by rewrite (throwing_lookup_is_not_locked _ _ _ _ Hthrow).
Qed.

Lemma proxy_get_never_throws_witness :
  exists p w,
    Index.createService (localhost None) VUndefined (Some 0)
      (alloc throwing_getter empty_world).2 = (Normal p, w) /\
    Reflect_get (object_at (proxy_target p) w) (KStr "broken") OnProxy =
      Throw (VError (OtherError "RangeError") "boom") /\
    proxy_read p (KStr "broken") w =
      Normal (VFun (CDefaultTrap 0 (Some "IMyService") (KStr "broken") false)).
Proof.
  destruct (proxy_get_never_throws (localhost None) VUndefined (Some 0)
              (alloc throwing_getter empty_world).2 _ _ _ _ eq_refl eq_refl
              _ (or_introl eq_refl))
    as (_ & _ & _ & Hget).
  eexists _, _. split; [reflexivity |]. split; [by vm_compute |].
  eapply Hget; [compute_done | by vm_compute].
Defined.

(** ** Operations other than reads *)

Lemma Reflect_has_false target k :
  Reflect_has target k = false <-> lookup_slot target k = None.
Proof.
  unfold Reflect_has. rewrite bool_decide_eq_false, <- eq_None_not_Some. done.
Qed.

Lemma not_own_key target k : lookup_slot target k = None -> k ∉ Reflect_ownKeys target.
Proof.
  unfold lookup_slot, Reflect_ownKeys. cbn. rewrite not_elem_of_dom.
  by destruct (own target !! k).
Qed.

Lemma untrapped_operations p http serviceName withMsgPack k v w :
  proxy_handler p = Index.handler http serviceName withMsgPack \/
  proxy_handler p = Extended.handler http serviceName withMsgPack ->
  proxy_has p k w = Reflect_has (object_at (proxy_target p) w) k /\
  proxy_ownKeys p w = Reflect_ownKeys (object_at (proxy_target p) w) /\
  proxy_set p k v w =
    ((Reflect_set (object_at (proxy_target p) w) k v).1,
     store (proxy_target p) (Reflect_set (object_at (proxy_target p) w) k v).2 w) /\
  proxy_delete p k w =
    ((Reflect_deleteProperty (object_at (proxy_target p) w) k).1,
     store (proxy_target p) (Reflect_deleteProperty (object_at (proxy_target p) w) k).2 w).
Proof.
  unfold proxy_has, proxy_ownKeys, proxy_set, proxy_delete.
  intros [-> | ->]; cbn; by destruct (Reflect_set _ _ _), (Reflect_deleteProperty _ _).
Qed.

(** C10: the handler of either revision traps reads only. Membership
    tests, key enumeration, writes and deletes are those of the base
    object; so for a base object without a control name, the name is not
    [in] the proxy and is no key of it, while reading it yields a
    function. *)
Theorem only_reads_are_trapped
    config axiosConfig baseService w0 p_index w_index p_ext w_ext :
  Index.createService config axiosConfig baseService w0 = (Normal p_index, w_index) ->
  Extended.createService config axiosConfig baseService w0 = (Normal p_ext, w_ext) ->
  (forall p k v w,
     p = p_index \/ p = p_ext ->
     proxy_has p k w = Reflect_has (object_at (proxy_target p) w) k /\
     proxy_ownKeys p w = Reflect_ownKeys (object_at (proxy_target p) w) /\
     proxy_set p k v w =
       ((Reflect_set (object_at (proxy_target p) w) k v).1,
        store (proxy_target p) (Reflect_set (object_at (proxy_target p) w) k v).2 w) /\
     proxy_delete p k w =
       ((Reflect_deleteProperty (object_at (proxy_target p) w) k).1,
        store (proxy_target p)
          (Reflect_deleteProperty (object_at (proxy_target p) w) k).2 w)) /\
  (forall p name w,
     p = p_index \/ p = p_ext ->
     name ∈ reserved ->
     Reflect_has (object_at (proxy_target p) w) (KStr name) = false ->
     proxy_has p (KStr name) w = false /\
     (KStr name ∉ proxy_ownKeys p w) /\
     exists c, proxy_get p (KStr name) w = Normal (VFun c)).
Proof.
  intros Hindex Hext.
  assert (forall p, p = p_index \/ p = p_ext ->
            proxy_handler p = Index.handler (length (https w0)) (serviceName config)
                                (withMsgPack config) \/
            proxy_handler p = Extended.handler (length (https w0)) (serviceName config)
                                (withMsgPack config)) as Hhandler.
  { rewrite Index_createService_eq in Hindex. rewrite Extended_createService_eq in Hext.
    intros p [-> | ->]; simplify_eq; cbn; auto. }
  split.
  - intros p k v w Hp. eapply untrapped_operations, Hhandler, Hp.
  - intros p name w Hp Hname Hhas.
    destruct (untrapped_operations p _ _ _ (KStr name) VUndefined w (Hhandler p Hp))
      as (-> & -> & _).
    split; [done |]. apply Reflect_has_false in Hhas.
    split; [by apply not_own_key |].
    destruct Hp as [-> | ->].
    + rewrite (Index_proxy_get _ _ _ _ _ _ _ _ Hindex). unfold Index.get.
      repeat case_decide; try by eexists.
      rewrite (Reflect_get_absent _ _ _ Hhas). by eexists.
    + rewrite (Extended_proxy_get _ _ _ _ _ _ _ _ Hext).
      destruct (Extended_get_reserved (length (https w0)) (serviceName config)
                  (withMsgPack config) (object_at (proxy_target p_ext) w) name OnProxy Hname)
        as (c & _ & ->).
      by eexists.
Qed.

Lemma only_reads_are_trapped_witness :
  exists p w,
    Index.createService (localhost None) VUndefined None empty_world = (Normal p, w) /\
    proxy_has p (KStr "addHeaders") w = false /\
    (KStr "addHeaders" ∉ proxy_ownKeys p w) /\
    proxy_get p (KStr "addHeaders") w = Normal (VFun (CAddHeaders 0)) /\
    proxy_has p (KStr "x") (proxy_set p (KStr "x") (VNum 1) w).2 = true.
Proof.
  destruct (only_reads_are_trapped (localhost None) VUndefined None empty_world
              _ _ _ _ eq_refl eq_refl) as [_ Hreserved].
  eexists _, _. split; [reflexivity |].
  destruct (Hreserved _ "addHeaders"
              (created (Index.axios_config (localhost None) VUndefined) None empty_world)
              (or_introl eq_refl) ltac:(compute_done) ltac:(by vm_compute))
    as (Hhas & Hkeys & _).
  split; [exact Hhas |]. split; [exact Hkeys |]. split; by vm_compute.
Defined.

(** ** The codec *)

(** C5, as stated, fails in the revision with interceptors: with
    [withMsgPack] set it hands the argument sequence itself to [post]. *)
Lemma Extended_posts_the_sequence_unpacked :
  exists p w,
    Extended.createService (localhost (Some true)) VUndefined None empty_world =
      (Normal p, w) /\
    (fun r => sent r.2) <$> invoke (Extended.call mock) p (KStr "postSample") [sample] w =
      Some [Post 0 "IMyService/postSample" (VArr [sample])] /\
    Post 0 "IMyService/postSample" (VArr [sample]) <>
      Post 0 "IMyService/postSample" (VBytes (serialize mock (VArr [sample]))).
Proof.
  eexists _, _. split; [reflexivity |]. split; [by vm_compute | discriminate].
Qed.

(** C5, amended: a synthesized call with one or more arguments hands to
    the transport's [post], in [src/index.ts], the codec's serialization
    of the argument sequence when [withMsgPack] is true and the sequence
    itself when it is false or left out; in the revision with
    interceptors it hands over the sequence itself in either case. *)
Theorem request_body_encoding env http serviceName P withMsgPack a rest w :
  (exists promise w',
     Index.call env (Index.defaultTapInternal http serviceName P withMsgPack) (a :: rest) w =
       Some (Normal promise, w') /\
     sent w' = sent w ++
       [Post http (template serviceName +:+ "/" +:+ String_of_key P)
          match withMsgPack with
          | Some true => VBytes (serialize env (VArr (a :: rest)))
          | Some false | None => VArr (a :: rest)
          end]) /\
  (exists promise w',
     Extended.call env (Extended.defaultTapInternal http serviceName P withMsgPack)
       (a :: rest) w = Some (Normal promise, w') /\
     sent w' = sent w ++
       [Post http (template serviceName +:+ "/" +:+ String_of_key P) (VArr (a :: rest))]).
Proof.
  split.
  - unfold Index.call, Index.defaultTapInternal. rewrite Index_defaultTrap_eq.
    eexists _, _. split; [reflexivity |]. by destruct withMsgPack as [[] |].
  - unfold Extended.call, Extended.defaultTapInternal. rewrite Extended_defaultTrap_eq.
    eexists _, _. by split.
Qed.

(** In the revision with interceptors, a synthesized call with
    [withMsgPack] true whose request the transport fulfils with a
    response object settles with that object, its [data] replaced by what
    the codec unpacks from it and every other field as it was; with
    [withMsgPack] false it settles with the response itself. *)
Lemma Extended_unpacks_the_response env http serviceName P args w response data :
  respond env (call_request http (template serviceName +:+ "/" +:+ String_of_key P) args
                 (VArr args)) = (true, VObj response) ->
  deserialize env (default VUndefined (response !! "data")) = Normal data ->
  ((Extended.defaultTrap env http serviceName P true args w).1 =
     Normal (VPromise true (VObj (<["data" := data]> response))) /\
   (<["data" := data]> response) !! "data" = Some data /\
   forall field, field <> "data" -> (<["data" := data]> response) !! field = response !! field) /\
  (Extended.defaultTrap env http serviceName P false args w).1 =
    Normal (VPromise true (VObj response)).
Proof.
  intros Hrespond Hdata. rewrite !Extended_defaultTrap_eq. cbn. rewrite Hrespond. cbn.
  rewrite Hdata. cbn. split; [| done].
  split; [reflexivity |]. split; [apply lookup_insert_eq |].
  intros field Hfield. by apply lookup_insert_ne.
Qed.

Example Extended_unpacks_hello_world :
  (Extended.defaultTrap mock 0 (Some "IMyService") (KStr "postSample") true [sample]
     empty_world).1 =
    Normal (VPromise true
              (VObj (<["data" := VObj (<["hello" := VStr "world"]> ∅)]>
                       (<["url" := VStr "IMyService/postSample"]>
                          (<["status" := VNum 200]> ∅))))).
Proof.
  destruct (Extended_unpacks_the_response mock 0 (Some "IMyService") (KStr "postSample")
              [sample] empty_world _ _ eq_refl eq_refl) as [[-> _] _].
  by vm_compute.
Qed.

(** C6 in [src/index.ts]: a synthesized call settles exactly as the
    request of the transport does, whatever [withMsgPack]; nothing is
    unpacked. With [withMsgPack] set, [getSample] resolves to the
    response whose [data] is still the packed bytes, which the codec
    would unpack to [{hello: "world"}] as the test suite expects. *)
Theorem Index_leaves_the_response_packed :
  (forall env http serviceName P withMsgPack args w,
     (Index.defaultTrap env http serviceName P withMsgPack args w).1 =
       Normal
         (VPromise
            (respond env
               (call_request http (template serviceName +:+ "/" +:+ String_of_key P) args
                  (if withMsgPack then VBytes (serialize env (VArr args)) else VArr args))).1
            (respond env
               (call_request http (template serviceName +:+ "/" +:+ String_of_key P) args
                  (if withMsgPack then VBytes (serialize env (VArr args)) else VArr args))).2)) /\
  exists p w,
    Index.createService (localhost (Some true)) VUndefined None empty_world = (Normal p, w) /\
    (fun r => r.1) <$> invoke (Index.call mock) p (KStr "getSample") [] w =
      Some (Normal (VPromise true (respond mock (Get 0 "IMyService/getSample")).2)) /\
    get_field (respond mock (Get 0 "IMyService/getSample")).2 "data" =
      Normal (VBytes hello_world_packed) /\
    deserialize mock (VBytes hello_world_packed) =
      Normal (VObj (<["hello" := VStr "world"]> ∅)).
Proof.
  split.
  - intros. by rewrite Index_defaultTrap_eq.
  - eexists _, _. split; [reflexivity |]. repeat split; by vm_compute.
Qed.

(** ** Default headers *)

Lemma headers_set_headers http hs w :
  is_Some (https w !! http) -> axios.headers http (axios.set_headers http hs w) = hs.
Proof.
  intros [i Hi]. unfold axios.headers, axios.instance, axios.set_headers, axios.update.
  cbn. by rewrite list_lookup_alter_eq, Hi.
Qed.

Lemma set_headers_frame http hs w :
  objects (axios.set_headers http hs w) = objects w /\
  sent (axios.set_headers http hs w) = sent w /\
  forall other, other <> http ->
    https (axios.set_headers http hs w) !! other = https w !! other.
Proof.
  repeat split. intros other Hother. cbn. by rewrite list_lookup_alter_ne.
Qed.

Lemma object_is_truthy v : typeof v = "object" -> v <> VNull -> truthy v = true.
Proof. by destruct v. Qed.

(** C7: called with a non-null object, [addHeaders] of either revision
    makes the default headers of its axios instance map every key of the
    argument to the argument's value and leaves every other key, and
    everything else, as it was; called with nothing or with something
    that is no object, it throws a [TypeError] and changes nothing. *)
Theorem addHeaders_merges http w :
  is_Some (https w !! http) ->
  (forall addHeaders headers rest,
     addHeaders = Index.addHeaders \/ addHeaders = Extended.addHeaders ->
     typeof headers = "object" ->
     headers <> VNull ->
     exists w',
       addHeaders http (headers :: rest) w = (Normal VUndefined, w') /\
       (forall k v, spread headers !! k = Some v -> axios.headers http w' !! k = Some v) /\
       (forall k, spread headers !! k = None ->
                  axios.headers http w' !! k = axios.headers http w !! k) /\
       objects w' = objects w /\ sent w' = sent w /\
       forall other, other <> http -> https w' !! other = https w !! other) /\
  (forall addHeaders args,
     addHeaders = Index.addHeaders \/ addHeaders = Extended.addHeaders ->
     args = [] \/ (exists v rest', args = v :: rest' /\ typeof v <> "object") \/
       (exists rest', args = VNull :: rest') ->
     addHeaders http args w = (Throw TypeError_of_addHeaders, w)).
Proof.
  intros Hlive. split.
  - intros addHeaders headers rest Hrev Hobject Hnull.
    exists (axios.set_headers http (spread headers ∪ axios.headers http w) w).
    split.
    { destruct Hrev as [-> | ->]; unfold Index.addHeaders, Extended.addHeaders; cbn;
        by rewrite object_is_truthy, Hobject. }
    rewrite headers_set_headers by done.
    split; [intros k v Hk; by apply lookup_union_Some_l |].
    split; [intros k Hk; by apply lookup_union_r |].
    apply set_headers_frame.
  - intros addHeaders args Hrev Hargs.
    destruct Hargs as [-> | [(v & rest' & -> & Hv) | (rest' & ->)]];
      destruct Hrev as [-> | ->]; unfold Index.addHeaders, Extended.addHeaders; cbn;
      try done.
    all: destruct (truthy v); cbn; [| done].
    all: by destruct v.
Qed.

Lemma addHeaders_merges_witness :
  exists w',
    Extended.addHeaders 0 [VObj (<["Authorization" := VStr "Bearer t"]> ∅)] one_instance =
      (Normal VUndefined, w') /\
    axios.headers 0 w' !! "Authorization" = Some (VStr "Bearer t") /\
    axios.headers 0 w' !! "x-custom-header" = Some (VStr "true").
Proof.
  destruct (addHeaders_merges 0 one_instance ltac:(by eexists)) as [Hmerge _].
  destruct (Hmerge Extended.addHeaders (VObj (<["Authorization" := VStr "Bearer t"]> ∅)) []
              (or_intror eq_refl) eq_refl ltac:(discriminate))
    as (w' & Hcall & Hgiven & Hkept & _).
  exists w'. split; [exact Hcall |]. split.
  - apply Hgiven. by vm_compute.
  - rewrite Hkept; by vm_compute.
Defined.

Lemma elem_of_cons_dec {A} (k name : string) (names : list string) (x y : A) :
  (if decide (k ∈ name :: names) then x else y) =
    if decide (k = name) then x else if decide (k ∈ names) then x else y.
Proof.
  destruct (decide (k = name)) as [-> | Hne].
  - by rewrite decide_True by apply list_elem_of_here.
  - destruct (decide (k ∈ names)).
    + by rewrite decide_True by by apply list_elem_of_further.
    + rewrite decide_False; [done |]. rewrite elem_of_cons. tauto.
Qed.

Lemma lookup_delete_all (names : list string) (hs : gmap string value) (k : string) :
  foldl (fun hs header => delete header hs) hs names !! k =
    if decide (k ∈ names) then None else hs !! k.
Proof.
  revert hs. induction names as [| name names IH]; intros hs; cbn.
  - by rewrite decide_False by apply not_elem_of_nil.
  - rewrite IH, elem_of_cons_dec.
    destruct (decide (k = name)) as [-> | Hne].
    + rewrite lookup_delete_eq. by case_decide.
    + by rewrite lookup_delete_ne.
Qed.

(** With one name or more, [removeHeaders] of either revision deletes
    the named keys from the default headers of its axios instance, passes
    over names that are no key, and leaves the other headers and
    everything else as they were. *)
Lemma removeHeaders_deletes_the_names removeHeaders http name names w :
  removeHeaders = Index.removeHeaders \/ removeHeaders = Extended.removeHeaders ->
  is_Some (https w !! http) ->
  exists w',
    removeHeaders http (name :: names) w = (Normal VUndefined, w') /\
    (forall k, k ∈ name :: names -> axios.headers http w' !! k = None) /\
    (forall k, k ∉ name :: names -> axios.headers http w' !! k = axios.headers http w !! k) /\
    objects w' = objects w /\ sent w' = sent w /\
    forall other, other <> http -> https w' !! other = https w !! other.
Proof.
  intros Hrev Hlive. eexists. split.
  { destruct Hrev as [-> | ->]; reflexivity. }
  rewrite headers_set_headers by done.
  split; [| split; [| apply set_headers_frame]];
    intros k Hk; rewrite (lookup_delete_all (name :: names)); by case_decide.
Qed.

(** C8 at the call without names: [removeHeaders] of [src/index.ts]
    throws the [TypeError] and changes nothing, while that of the
    revision with interceptors returns normally; its test [!headers] is
    made on the rest array, which is truthy also when empty. The default
    headers stay as they were in both. *)
Theorem removeHeaders_without_names env http w :
  Index.removeHeaders http [] w = (Throw TypeError_of_removeHeaders, w) /\
  Index.call env (CRemoveHeaders http) [] w = Some (Throw TypeError_of_removeHeaders, w) /\
  truthy (VArr []) = true /\
  (Extended.removeHeaders http [] w).1 = Normal VUndefined /\
  (fun r => r.1) <$> Extended.call env (CRemoveHeaders http) [] w = Some (Normal VUndefined) /\
  axios.headers http (Extended.removeHeaders http [] w).2 = axios.headers http w.
Proof.
  repeat split.
  unfold axios.headers at 1. unfold axios.instance. cbn. rewrite list_lookup_alter_eq.
  unfold axios.headers, axios.instance. by destruct (https w !! http).
Qed.


(** * Further properties of the code *)

(** ** The axios instance [createService] makes *)

Lemma falsy_spreads_nothing a : truthy a = false -> spread (js_and a a) = ∅.
Proof.
  unfold js_and. intros Ha. rewrite Ha.
  destruct a as [| | | | s | | | | | |]; try done.
  destruct s; [done | discriminate Ha].
Qed.

Lemma format_object (withMsgPack : option bool) (format : gmap string value) :
  spread (js_and (of_bool withMsgPack) (VObj format)) =
    if default false withMsgPack then format else ∅.
Proof. by destruct withMsgPack as [[] |]. Qed.

(** Without an axios config of the caller ([undefined], [null] or any
    other falsy value), the config handed to [axios.create] consists of
    [baseURL] as given and of a [headers] object that is the msgpack pair
    when [withMsgPack] is true and empty otherwise; the revision with
    interceptors adds [responseType: 'arraybuffer'] in the msgpack case
    only. *)
Theorem createService_format_defaults config axiosConfig baseService w0 :
  truthy axiosConfig = false ->
  create_config
    (axios.instance (length (https w0))
       (Index.createService config axiosConfig baseService w0).2) =
    <["headers" := VObj (if default false (withMsgPack config) then msgpack_headers else ∅)]>
      (<["baseURL" := of_string (baseURL config)]> ∅) /\
  create_config
    (axios.instance (length (https w0))
       (Extended.createService config axiosConfig baseService w0).2) =
    (if default false (withMsgPack config) then Extended.arraybuffer else ∅) ∪
    <["headers" := VObj (if default false (withMsgPack config) then msgpack_headers else ∅)]>
      (<["baseURL" := of_string (baseURL config)]> ∅).
Proof.
  intros Hfalsy.
  rewrite Index_createService_eq, Extended_createService_eq. cbn.
  unfold axios.instance. rewrite !created_instance. cbn.
  unfold Index.axios_config, Extended.axios_config.
  by rewrite (falsy_spreads_nothing _ Hfalsy), !format_object, !(left_id_L ∅ (∪)).
Qed.

Lemma createService_format_defaults_witness :
  create_config
    (axios.instance 0
       (Extended.createService (localhost (Some true)) VNull None empty_world).2)
    !! "headers" = Some (VObj msgpack_headers) /\
  create_config
    (axios.instance 0
       (Extended.createService (localhost (Some true)) VNull None empty_world).2)
    !! "responseType" = Some (VStr "arraybuffer") /\
  create_config
    (axios.instance 0
       (Index.createService (localhost None) VNull None empty_world).2)
    !! "headers" = Some (VObj ∅).
Proof.
  destruct (createService_format_defaults (localhost (Some true)) VNull None empty_world
              eq_refl) as [_ Hext].
  destruct (createService_format_defaults (localhost None) VNull None empty_world
              eq_refl) as [Hindex _].
  change (length (https empty_world)) with 0 in Hext, Hindex.
  rewrite Hext, Hindex. repeat split; by vm_compute.
Defined.

(** Every option of the caller's axios config reaches [axios.create]
    as given, in place of what [createService] would have put under that
    name ([baseURL], [headers], [responseType]). *)
Theorem caller_options_win config options baseService w0 name v :
  options !! name = Some v ->
  create_config
    (axios.instance (length (https w0))
       (Index.createService config (VObj options) baseService w0).2) !! name = Some v /\
  create_config
    (axios.instance (length (https w0))
       (Extended.createService config (VObj options) baseService w0).2) !! name = Some v.
Proof.
  intros Hname.
  rewrite Index_createService_eq, Extended_createService_eq. cbn.
  unfold axios.instance. rewrite !created_instance. cbn.
  unfold Index.axios_config, Extended.axios_config. cbn.
  split; by apply lookup_union_Some_l.
Qed.

Lemma caller_options_win_witness :
  create_config
    (axios.instance 0
       (Extended.createService (localhost (Some true))
          (VObj (<["responseType" := VStr "json"]> ∅)) None empty_world).2)
    !! "responseType" = Some (VStr "json").
Proof.
  exact (proj2 (caller_options_win (localhost (Some true))
                  (<["responseType" := VStr "json"]> ∅) None empty_world
                  "responseType" (VStr "json") eq_refl)).
Defined.

(** ** One axios instance per service *)

Lemma header_call_changes_headers_only env call c h args w r w' :
  call = Index.call env \/ call = Extended.call env ->
  c = CAddHeaders h \/ c = CRemoveHeaders h ->
  call c args w = Some (r, w') ->
  w' = w \/ exists hs, w' = axios.set_headers h hs w.
Proof.
  intros [-> | ->] [-> | ->]; cbn.
  - unfold Index.addHeaders. destruct (_ || _); intros [= <- <-]; eauto.
  - destruct (strings_of args) as [names |]; [| done]. cbn.
    unfold Index.removeHeaders. destruct (_ <=? _)%nat; intros [= <- <-]; eauto.
  - unfold Extended.addHeaders. destruct (_ || _); intros [= <- <-]; eauto.
  - destruct (strings_of args) as [names |]; [| done]. cbn.
    unfold Extended.removeHeaders. intros [= <- <-]; eauto.
Qed.

Lemma header_names_resolve createService config axiosConfig baseService w0 p w1 name w :
  createService = Index.createService \/ createService = Extended.createService ->
  createService config axiosConfig baseService w0 = (Normal p, w1) ->
  name = "addHeaders" \/ name = "removeHeaders" ->
  length (https w1) = S (length (https w0)) /\
  exists c,
    proxy_get p (KStr name) w = Normal (VFun c) /\
    proxy_read p (KStr name) w =
      (if is_locked (object_at (proxy_target p) w) (KStr name)
       then Throw TypeError_of_proxy
       else Normal (VFun c)) /\
    (c = CAddHeaders (length (https w0)) \/ c = CRemoveHeaders (length (https w0))).
Proof.
  intros [-> | ->] Hcreate Hname.
  - rewrite (Index_proxy_get _ _ _ _ _ _ _ _ Hcreate),
      (Index_proxy_read _ _ _ _ _ _ _ _ Hcreate).
    rewrite Index_createService_eq in Hcreate. injection Hcreate as _ <-.
    split; [cbn; rewrite length_app; cbn; lia |].
    destruct Hname as [-> | ->]; eexists;
      (split; [reflexivity |]); (split; [apply checked_made |]); auto.
  - rewrite (Extended_proxy_get _ _ _ _ _ _ _ _ Hcreate),
      (Extended_proxy_read _ _ _ _ _ _ _ _ Hcreate).
    rewrite Extended_createService_eq in Hcreate. injection Hcreate as _ <-.
    split; [cbn; rewrite length_app; cbn; lia |].
    destruct Hname as [-> | ->]; eexists;
      (split; [reflexivity |]); (split; [apply checked_made |]); auto.
Qed.

Lemma invoke_header_call env call p k c h args w r w' :
  call = Index.call env \/ call = Extended.call env ->
  proxy_read p k w =
    (if is_locked (object_at (proxy_target p) w) k
     then Throw TypeError_of_proxy
     else Normal (VFun c)) ->
  c = CAddHeaders h \/ c = CRemoveHeaders h ->
  invoke call p k args w = Some (r, w') ->
  w' = w \/ exists hs, w' = axios.set_headers h hs w.
Proof.
  intros Hcall Hread Hc. unfold invoke. rewrite Hread.
  destruct (is_locked _ _).
  - intros [= <- <-]. by left.
  - by apply (header_call_changes_headers_only env).
Qed.

(** Two services made one after the other have each their own axios
    instance: [addHeaders] and [removeHeaders] called on the first leave
    the instance of the second, and so its default headers, as they
    were, and those called on the second leave the first's. *)
Theorem services_do_not_share_headers
    env create1 create2 call config1 axiosConfig1 base1 config2 axiosConfig2 base2
    w0 p1 w1 p2 w2 name args w r w' :
  create1 = Index.createService \/ create1 = Extended.createService ->
  create2 = Index.createService \/ create2 = Extended.createService ->
  call = Index.call env \/ call = Extended.call env ->
  create1 config1 axiosConfig1 base1 w0 = (Normal p1, w1) ->
  create2 config2 axiosConfig2 base2 w1 = (Normal p2, w2) ->
  name = "addHeaders" \/ name = "removeHeaders" ->
  (invoke call p1 (KStr name) args w = Some (r, w') ->
   https w' !! length (https w1) = https w !! length (https w1)) /\
  (invoke call p2 (KStr name) args w = Some (r, w') ->
   https w' !! length (https w0) = https w !! length (https w0)) /\
  proxy_get p1 (KStr "addHeaders") w = Normal (VFun (CAddHeaders (length (https w0)))) /\
  proxy_get p2 (KStr "addHeaders") w = Normal (VFun (CAddHeaders (length (https w1)))).
Proof.
  intros Hcreate1 Hcreate2 Hcall Hp1 Hp2 Hname.
  destruct (header_names_resolve _ _ _ _ _ _ _ name w Hcreate1 Hp1 Hname)
    as (Hlen & c1 & _ & Hread1 & Hc1).
  destruct (header_names_resolve _ _ _ _ _ _ _ name w Hcreate2 Hp2 Hname)
    as (_ & c2 & _ & Hread2 & Hc2).
  split; [| split; [| split]].
  - intros Hinvoke.
    destruct (invoke_header_call _ _ _ _ _ _ _ _ _ _ Hcall Hread1 Hc1 Hinvoke)
      as [-> | [hs ->]]; [done |].
    apply set_headers_frame. lia.
  - intros Hinvoke.
    destruct (invoke_header_call _ _ _ _ _ _ _ _ _ _ Hcall Hread2 Hc2 Hinvoke)
      as [-> | [hs ->]]; [done |].
    apply set_headers_frame. lia.
  - destruct Hcreate1 as [-> | ->].
    + by rewrite (Index_proxy_get _ _ _ _ _ _ _ _ Hp1).
    + by rewrite (Extended_proxy_get _ _ _ _ _ _ _ _ Hp1).
  - destruct Hcreate2 as [-> | ->].
    + by rewrite (Index_proxy_get _ _ _ _ _ _ _ _ Hp2).
    + by rewrite (Extended_proxy_get _ _ _ _ _ _ _ _ Hp2).
Qed.

Lemma services_do_not_share_headers_witness :
  exists p1 w1 p2 w2,
    Index.createService (localhost None) VUndefined None empty_world = (Normal p1, w1) /\
    Extended.createService (localhost (Some true)) VUndefined None w1 = (Normal p2, w2) /\
    forall r w',
      invoke (Index.call mock) p1 (KStr "addHeaders") [sample] w2 = Some (r, w') ->
      https w' !! 1 = https w2 !! 1.
Proof.
  eexists _, _, _, _. split; [reflexivity |]. split; [reflexivity |].
  intros r w'.
  exact (proj1 (services_do_not_share_headers mock Index.createService
                  Extended.createService (Index.call mock)
                  (localhost None) VUndefined None (localhost (Some true)) VUndefined None
                  empty_world _ _ _ _ "addHeaders" [sample] _ r w'
                  (or_introl eq_refl) (or_intror eq_refl) (or_introl eq_refl)
                  eq_refl eq_refl (or_introl eq_refl))).
Defined.

(** ** Reads, writes and deletes through the proxy *)

Lemma object_at_store t o w :
  is_Some (objects w !! t) -> object_at t (store t o w) = o.
Proof.
  intros Hlive. unfold object_at, store. cbn.
  by rewrite list_lookup_insert_eq by by apply lookup_lt_is_Some.
Qed.

Lemma handler_of createService config axiosConfig baseService w0 p w1 :
  createService = Index.createService \/ createService = Extended.createService ->
  createService config axiosConfig baseService w0 = (Normal p, w1) ->
  proxy_target p = default (length (objects w0)) baseService /\
  (proxy_handler p = Index.handler (length (https w0)) (serviceName config)
                       (withMsgPack config) \/
   proxy_handler p = Extended.handler (length (https w0)) (serviceName config)
                       (withMsgPack config)).
Proof.
  intros [-> | ->] Hcreate;
    [rewrite Index_createService_eq in Hcreate
    | rewrite Extended_createService_eq in Hcreate];
    simplify_eq; cbn; auto.
Qed.

Lemma Reflect_set_accepted target k v :
  accepts_write target k = true ->
  exists configurable,
    Reflect_set target k v =
      (Normal true, define_own target k (Data v true configurable)).
Proof.
  unfold accepts_write, Reflect_set.
  destruct (own target !! k) as [[v' [] c | g s c] |]; try done; [by eexists |].
  destruct (extensible target); [| done].
  destruct (find_slot (prototypes target) k) as [[v' [] c | g s c] |]; try done;
    by eexists.
Qed.

Lemma read_own_data target k v configurable this :
  Reflect_get (define_own target k (Data v true configurable)) k this = Normal v /\
  is_locked (define_own target k (Data v true configurable)) k = false /\
  Reflect_has (define_own target k (Data v true configurable)) k = true.
Proof.
  unfold Reflect_get, Reflect_has, is_locked, lookup_slot. cbn.
  by rewrite lookup_insert_eq.
Qed.

(** For a name that is not reserved, a member of the base object whose
    value, read as the trap reads it (with the proxy as receiver), is
    [null] or [undefined] is passed over for the synthesized call, which
    the engine refuses with a [TypeError] if the member is an own
    property that it pins (see [is_locked]); the falsy values [false],
    [0] and the empty string are returned as they are: the trap tests
    with [??], not for truthiness. *)
Theorem nullish_members_fall_through
    createService config axiosConfig baseService w0 p w1 k v w :
  createService = Index.createService \/ createService = Extended.createService ->
  createService config axiosConfig baseService w0 = (Normal p, w1) ->
  ~ is_reserved k ->
  Reflect_get (object_at (proxy_target p) w) k OnProxy = Normal v ->
  (v = VNull \/ v = VUndefined ->
   proxy_read p k w =
     if is_locked (object_at (proxy_target p) w) k
     then Throw TypeError_of_proxy
     else Normal (VFun (CDefaultTrap (length (https w0)) (serviceName config) k
                          (default false (withMsgPack config))))) /\
  (v = VBool false \/ v = VNum 0 \/ v = VStr "" -> proxy_read p k w = Normal v).
Proof.
  intros Hrev Hcreate Hk Hget.
  rewrite (proxy_read_other _ _ _ _ _ _ _ _ w Hrev Hcreate Hk), Hget.
  split; intros H; destruct_or!; by subst.
Qed.

Lemma nullish_members_fall_through_witness :
  (exists p w,
     Index.createService (localhost None) VUndefined (Some 0)
       (alloc (literal [("count", VNum 0); ("gone", VNull)]) empty_world).2 = (Normal p, w) /\
     proxy_read p (KStr "count") w = Normal (VNum 0) /\
     proxy_read p (KStr "gone") w =
       Normal (VFun (CDefaultTrap 0 (Some "IMyService") (KStr "gone") false))) /\
  (exists p w,
     Extended.createService (localhost None) VUndefined (Some 0)
       (alloc (frozen [("count", VNum 0); ("gone", VNull)]) empty_world).2 = (Normal p, w) /\
     proxy_read p (KStr "count") w = Normal (VNum 0) /\
     proxy_read p (KStr "gone") w = Throw TypeError_of_proxy).
Proof.
  split; eexists _, _; (split; [reflexivity |]); split.
  - refine (proj2 (nullish_members_fall_through Index.createService (localhost None)
                     VUndefined (Some 0) _ _ _ (KStr "count") (VNum 0) _
                     (or_introl eq_refl) eq_refl _ _) _);
      [compute_done | by vm_compute | auto].
  - refine (proj1 (nullish_members_fall_through Index.createService (localhost None)
                     VUndefined (Some 0) _ _ _ (KStr "gone") VNull _
                     (or_introl eq_refl) eq_refl _ _) _);
      [compute_done | by vm_compute | auto].
  - refine (proj2 (nullish_members_fall_through Extended.createService (localhost None)
                     VUndefined (Some 0) _ _ _ (KStr "count") (VNum 0) _
                     (or_intror eq_refl) eq_refl _ _) _);
      [compute_done | by vm_compute | auto].
  - refine (proj1 (nullish_members_fall_through Extended.createService (localhost None)
                     VUndefined (Some 0) _ _ _ (KStr "gone") VNull _
                     (or_intror eq_refl) eq_refl _ _) _);
      [compute_done | by vm_compute | auto].
Defined.

(** When the base object takes the write (see [accepts_write]), a value
    written through the proxy under a name that is not reserved lands on
    the base object as an own data property and is what the next read
    through the proxy yields (the synthesized call again if the value is
    [null] or [undefined]). Axios instances and the requests sent are as
    before. *)
Theorem write_then_read
    createService config axiosConfig baseService w0 p w1 k v w :
  createService = Index.createService \/ createService = Extended.createService ->
  createService config axiosConfig baseService w0 = (Normal p, w1) ->
  is_Some (objects w !! proxy_target p) ->
  ~ is_reserved k ->
  accepts_write (object_at (proxy_target p) w) k = true ->
  (proxy_set p k v w).1 = Normal true /\
  (exists configurable,
     own (object_at (proxy_target p) (proxy_set p k v w).2) !! k =
       Some (Data v true configurable)) /\
  proxy_read p k (proxy_set p k v w).2 =
    Normal (if nullish v
            then VFun (CDefaultTrap (length (https w0)) (serviceName config) k
                         (default false (withMsgPack config)))
            else v) /\
  proxy_has p k (proxy_set p k v w).2 = true /\
  https (proxy_set p k v w).2 = https w /\
  sent (proxy_set p k v w).2 = sent w.
Proof.
  intros Hrev Hcreate Hlive Hk Haccepts.
  destruct (handler_of _ _ _ _ _ _ _ Hrev Hcreate) as [_ Hhandler].
  destruct (Reflect_set_accepted _ _ v Haccepts) as [configurable Hset].
  destruct (untrapped_operations p _ _ _ k v w Hhandler) as (_ & _ & Hpset & _).
  rewrite Hpset, Hset. cbn [fst snd].
  destruct (untrapped_operations p _ _ _ k v
              (store (proxy_target p)
                 (define_own (object_at (proxy_target p) w) k (Data v true configurable)) w)
              Hhandler) as (Hphas & _).
  rewrite Hphas, (proxy_read_other _ _ _ _ _ _ _ _ _ Hrev Hcreate Hk).
  rewrite object_at_store by done.
  destruct (read_own_data (object_at (proxy_target p) w) k v configurable OnProxy)
    as (-> & -> & ->).
  split; [done |]. split; [exists configurable; cbn; apply lookup_insert_eq |].
  split; [by destruct (nullish v) |]. done.
Qed.

Lemma write_then_read_witness :
  exists p w,
    Extended.createService (localhost None) VUndefined None empty_world = (Normal p, w) /\
    proxy_read p (KStr "token") (proxy_set p (KStr "token") (VStr "abc") w).2 =
      Normal (VStr "abc").
Proof.
  eexists _, _. split; [reflexivity |].
  refine (proj1 (proj2 (proj2 (write_then_read Extended.createService (localhost None)
            VUndefined None empty_world _ _ (KStr "token") (VStr "abc") _
            (or_intror eq_refl) eq_refl _ _ _)))).
  - by eexists.
  - compute_done.
  - by vm_compute.
Defined.

(** After a delete through the proxy of an own property that can be
    deleted (it is configurable, or there is none), a name that is not
    reserved and that the base object does not inherit is no longer [in]
    the proxy and reads as the synthesized call. *)
Theorem delete_then_read
    createService config axiosConfig baseService w0 p w1 k w :
  createService = Index.createService \/ createService = Extended.createService ->
  createService config axiosConfig baseService w0 = (Normal p, w1) ->
  is_Some (objects w !! proxy_target p) ->
  ~ is_reserved k ->
  accepts_delete (object_at (proxy_target p) w) k = true ->
  find_slot (prototypes (object_at (proxy_target p) w)) k = None ->
  (proxy_delete p k w).1 = true /\
  proxy_has p k (proxy_delete p k w).2 = false /\
  proxy_read p k (proxy_delete p k w).2 =
    Normal (VFun (CDefaultTrap (length (https w0)) (serviceName config) k
                    (default false (withMsgPack config)))).
Proof.
  intros Hrev Hcreate Hlive Hk Haccepts Hproto.
  destruct (handler_of _ _ _ _ _ _ _ Hrev Hcreate) as [_ Hhandler].
  assert (Reflect_deleteProperty (object_at (proxy_target p) w) k =
            (true, {| own := delete k (own (object_at (proxy_target p) w));
                      prototypes := prototypes (object_at (proxy_target p) w);
                      extensible := extensible (object_at (proxy_target p) w) |}))
    as Hdelete.
  { unfold Reflect_deleteProperty, accepts_delete in *.
    by destruct (own _ !! k) as [[v' wr [] | g s []] |]. }
  destruct (untrapped_operations p _ _ _ k VUndefined w Hhandler) as (_ & _ & _ & Hpdel).
  rewrite Hpdel, Hdelete. cbn [fst snd].
  assert (lookup_slot
            {| own := delete k (own (object_at (proxy_target p) w));
               prototypes := prototypes (object_at (proxy_target p) w);
               extensible := extensible (object_at (proxy_target p) w) |} k = None)
    as Habsent.
  { unfold lookup_slot. cbn. by rewrite lookup_delete_eq. }
  destruct (untrapped_operations p _ _ _ k VUndefined
              (store (proxy_target p)
                 {| own := delete k (own (object_at (proxy_target p) w));
                    prototypes := prototypes (object_at (proxy_target p) w);
                    extensible := extensible (object_at (proxy_target p) w) |} w)
              Hhandler) as (Hphas & _).
  rewrite Hphas, object_at_store by done.
  split; [done |]. split; [by apply Reflect_has_false |].
  apply (proxy_read_absent _ _ _ _ _ _ _ _ _ Hrev Hcreate Hk).
  by rewrite object_at_store.
Qed.

Lemma delete_then_read_witness :
  exists p w,
    Index.createService (localhost None) VUndefined (Some 0)
      (alloc existingservice empty_world).2 = (Normal p, w) /\
    proxy_read p (KStr "getSample") w = Normal (VFun (CNative "getSample")) /\
    proxy_read p (KStr "getSample") (proxy_delete p (KStr "getSample") w).2 =
      Normal (VFun (CDefaultTrap 0 (Some "IMyService") (KStr "getSample") false)).
Proof.
  eexists _, _. split; [reflexivity |]. split; [by vm_compute |].
  refine (proj2 (proj2 (delete_then_read Index.createService (localhost None)
            VUndefined (Some 0) _ _ _ (KStr "getSample") _
            (or_introl eq_refl) eq_refl _ _ _ _))).
  - by eexists.
  - compute_done.
  - by vm_compute.
  - by vm_compute.
Defined.

(** ** How a synthesized call settles in the revision with interceptors *)

(** A request the transport rejects makes the call settle rejected with
    the transport's reason as it is, with or without msgpack; the call
    itself returns normally. *)
Theorem rejections_pass_through env http serviceName P withMsgPack args w reason :
  respond env (call_request http (template serviceName +:+ "/" +:+ String_of_key P) args
                 (VArr args)) = (false, reason) ->
  (Extended.defaultTrap env http serviceName P withMsgPack args w).1 =
    Normal (VPromise false reason).
Proof. intros Hrespond. rewrite Extended_defaultTrap_eq. cbn. by rewrite Hrespond. Qed.

Lemma rejections_pass_through_witness :
  (Extended.defaultTrap
     {| serialize := serialize mock; deserialize := deserialize mock;
        respond := fun _ => (false, VError (OtherError "Error") "Network Error") |}
     0 (Some "IMyService") (KStr "getSample") true [] empty_world).1 =
    Normal (VPromise false (VError (OtherError "Error") "Network Error")).
Proof. by apply rejections_pass_through. Defined.

(** With msgpack, a fulfilled response whose [data] cannot be read or
    unpacked makes the call settle rejected with what reading or the
    codec threw: a response that is [null] or [undefined] gives a
    [TypeError], a payload the codec refuses gives the codec's error. *)
Theorem decode_failure_rejects env http serviceName P args w response err :
  respond env (call_request http (template serviceName +:+ "/" +:+ String_of_key P) args
                 (VArr args)) = (true, response) ->
  cbind (get_field response "data") (deserialize env) = Throw err ->
  (Extended.defaultTrap env http serviceName P true args w).1 =
    Normal (VPromise false err).
Proof.
  intros Hrespond Herr. rewrite Extended_defaultTrap_eq. cbn. rewrite Hrespond. cbn.
  unfold Extended.unpack. unfold cbind in *.
  destruct (get_field response "data") as [packed | e]; [| by simplify_eq].
  destruct (deserialize env packed) as [data | e]; by simplify_eq.
Qed.

Lemma decode_failure_rejects_witness :
  (Extended.defaultTrap
     {| serialize := serialize mock; deserialize := deserialize mock;
        respond := fun _ => (true, VObj (<["data" := VStr "<html>"]> ∅)) |}
     0 (Some "IMyService") (KStr "getSample") true [] empty_world).1 =
    Normal (VPromise false (VError (OtherError "Error") "Invalid data")) /\
  (Extended.defaultTrap
     {| serialize := serialize mock; deserialize := deserialize mock;
        respond := fun _ => (true, VNull) |}
     0 (Some "IMyService") (KStr "getSample") true [] empty_world).1 =
    Normal (VPromise false (VError TypeError "Cannot read properties of undefined")).
Proof. split; by eapply decode_failure_rejects. Defined.

(** ** [createRequest] *)

(** [createRequest], read from a proxy of the revision with
    interceptors and called, hands its first argument as it is to
    [request] of the service's own axios instance and returns what the
    transport returns: no URL is synthesized and nothing is unpacked,
    also when the service was made with [withMsgPack]. A member of the
    base object with that name is not consulted; only when it is an own
    property that the engine pins (see [is_locked]; so on a frozen
    object) does the engine refuse the read with its [TypeError], and
    nothing is sent. *)
Theorem createRequest_bypasses_the_convention
    env config axiosConfig baseService w0 p w1 args w :
  Extended.createService config axiosConfig baseService w0 = (Normal p, w1) ->
  (is_locked (object_at (proxy_target p) w) (KStr "createRequest") = false ->
   invoke (Extended.call env) p (KStr "createRequest") args w =
     Some (Normal (VPromise
                     (respond env (Request (length (https w0))
                                     (default VUndefined (args !! 0)))).1
                     (respond env (Request (length (https w0))
                                     (default VUndefined (args !! 0)))).2),
           {| objects := objects w; https := https w;
              sent := sent w ++ [Request (length (https w0))
                                   (default VUndefined (args !! 0))] |})) /\
  (is_locked (object_at (proxy_target p) w) (KStr "createRequest") = true ->
   invoke (Extended.call env) p (KStr "createRequest") args w =
     Some (Throw TypeError_of_proxy, w)).
Proof.
  intros Hcreate. unfold invoke.
  rewrite (Extended_proxy_read _ _ _ _ _ _ _ _ Hcreate).
  change (Extended.get _ _ _ _ (KStr "createRequest") OnProxy)
    with (Normal (Made (CCreateRequest (length (https w0))))).
  rewrite checked_made.
  split; intros ->; [| done].
  cbn. unfold Extended.createRequest, axios.request, axios.dispatch.
  by destruct (respond env _).
Qed.

Lemma createRequest_bypasses_the_convention_witness :
  (exists p w1,
     Extended.createService (localhost (Some true)) VUndefined None empty_world =
       (Normal p, w1) /\
     (fun r => sent r.2) <$>
       invoke (Extended.call mock) p (KStr "createRequest")
         [VObj (<["method" := VStr "DELETE"]> ∅)] w1 =
       Some [Request 0 (VObj (<["method" := VStr "DELETE"]> ∅))]) /\
  (exists p w1,
     Extended.createService (localhost None) VUndefined (Some 0)
       (alloc (frozen [("createRequest", VNull)]) empty_world).2 = (Normal p, w1) /\
     invoke (Extended.call mock) p (KStr "createRequest") [] w1 =
       Some (Throw TypeError_of_proxy, w1)).
Proof.
  split; eexists _, _; (split; [reflexivity |]).
  - rewrite (proj1 (createRequest_bypasses_the_convention mock (localhost (Some true))
                      VUndefined None empty_world _ _
                      [VObj (<["method" := VStr "DELETE"]> ∅)] _ eq_refl));
      by vm_compute.
  - apply (proj2 (createRequest_bypasses_the_convention mock (localhost None)
                    VUndefined (Some 0) _ _ _ [] _ eq_refl)).
    by vm_compute.
Defined.

(** ** Interceptors *)

(** [addInterceptor] called with neither handler, or with handlers that
    are falsy, throws its [TypeError] and changes nothing; the phase is
    not looked at before, so this also holds of a phase that does not
    exist. *)
Theorem addInterceptor_wants_a_handler http args w :
  truthy (default VUndefined (args !! 1)) = false ->
  truthy (default VUndefined (args !! 2)) = false ->
  Extended.addInterceptor http args w =
    (Throw (VError TypeError "No interceptor was provided"), w).
Proof. unfold Extended.addInterceptor. by intros -> ->. Qed.

Lemma addInterceptor_wants_a_handler_witness :
  Extended.addInterceptor 0 [VStr "request"] one_instance =
    (Throw (VError TypeError "No interceptor was provided"), one_instance) /\
  Extended.addInterceptor 0 [VStr "nowhere"; VNull; VUndefined] one_instance =
    (Throw (VError TypeError "No interceptor was provided"), one_instance).
Proof. split; by apply addInterceptor_wants_a_handler. Defined.

(** [removeInterceptor] looks its phase up by computed member access,
    which turns the phase into a property key, whereas [addInterceptor]
    compares it with [switch], that is strictly: the one-element array
    [['request']] registers nothing but ejects. *)
Lemma removeInterceptor_coerces_the_phase :
  Extended.addInterceptor 0 [VArr [VStr "request"]; VFun (CNative "log")] one_instance =
    (Normal VUndefined, one_instance) /\
  (Extended.removeInterceptor 0 [VArr [VStr "request"]; VNum 0] one_instance).1 =
    Normal VUndefined.
Proof. by vm_compute. Qed.

(** Given a handler and a phase that is a primitive value whose string
    form is neither ['request'] nor ['response'], [addInterceptor]
    returns [undefined] and registers nothing, without any error;
    [removeInterceptor] with such a phase throws a [TypeError]. Neither
    changes the world. *)
Theorem unknown_interceptor_phase http phase onFulfilled onRejected id rest rest' w :
  is_primitive phase = true ->
  ToString phase <> "request" ->
  ToString phase <> "response" ->
  truthy onFulfilled || truthy onRejected = true ->
  Extended.addInterceptor http (phase :: onFulfilled :: onRejected :: rest) w =
    (Normal VUndefined, w) /\
  exists message,
    Extended.removeInterceptor http (phase :: id :: rest') w =
      (Throw (VError TypeError message), w).
Proof.
  intros Hprimitive Hrequest Hresponse Hhandler.
  unfold Extended.addInterceptor, Extended.removeInterceptor. cbn [lookup list_lookup default].
  cbn.
  rewrite (proj2 (String.eqb_neq _ _) Hrequest), (proj2 (String.eqb_neq _ _) Hresponse).
  split; [| by eexists].
  assert (strict_eq phase "request" = false /\ strict_eq phase "response" = false)
    as [-> ->].
  { destruct phase as [| | | | s | | | | | |]; try done. cbn in *.
    split; by apply String.eqb_neq. }
  destruct (truthy onFulfilled), (truthy onRejected); by try discriminate Hhandler.
Qed.

Lemma unknown_interceptor_phase_witness :
  Extended.addInterceptor 0 [VStr "requests"; VFun (CNative "log"); VUndefined] one_instance =
    (Normal VUndefined, one_instance) /\
  exists message,
    Extended.removeInterceptor 0 [VUndefined; VNum 0] one_instance =
      (Throw (VError TypeError message), one_instance).
Proof.
  split.
  - exact (proj1 (unknown_interceptor_phase 0 (VStr "requests") (VFun (CNative "log"))
                    VUndefined VUndefined [] [] one_instance eq_refl
                    ltac:(discriminate) ltac:(discriminate) eq_refl)).
  - exact (proj2 (unknown_interceptor_phase 0 VUndefined (VFun (CNative "log"))
                    VUndefined (VNum 0) [] [] one_instance eq_refl
                    ltac:(discriminate) ltac:(discriminate) eq_refl)).
Defined.

Lemma update_chain_frame http phase f w :
  sent (axios.update http (fun i => axios.set_chain phase (f i) i) w) = sent w /\
  objects (axios.update http (fun i => axios.set_chain phase (f i) i) w) = objects w /\
  forall other,
    axios.headers other (axios.update http (fun i => axios.set_chain phase (f i) i) w) =
      axios.headers other w.
Proof.
  repeat split. intros other. unfold axios.headers, axios.instance. cbn.
  destruct (decide (http = other)) as [<- | Hne].
  - rewrite list_lookup_alter_eq. destruct (https w !! http) as [i |]; [| done].
    cbn. unfold axios.set_chain. by case_match.
  - by rewrite list_lookup_alter_ne.
Qed.

(** Whatever their arguments, [addInterceptor] and [removeInterceptor]
    send no request, touch no object and leave the default headers of
    every axios instance as they were. *)
Theorem interceptor_calls_keep_headers http args w :
  (sent (Extended.addInterceptor http args w).2 = sent w /\
   objects (Extended.addInterceptor http args w).2 = objects w /\
   forall other,
     axios.headers other (Extended.addInterceptor http args w).2 = axios.headers other w) /\
  (sent (Extended.removeInterceptor http args w).2 = sent w /\
   objects (Extended.removeInterceptor http args w).2 = objects w /\
   forall other,
     axios.headers other (Extended.removeInterceptor http args w).2 =
       axios.headers other w).
Proof.
  split.
  - unfold Extended.addInterceptor, axios.use.
    repeat case_match; simplify_eq; try done;
      apply (update_chain_frame http _ (fun _ => _)).
  - unfold Extended.removeInterceptor, axios.eject.
    repeat case_match; simplify_eq; try done;
      apply (update_chain_frame http _ (fun i => <[_ := None]> (axios.chain_of _ i))).
Qed.

(** ** Sequences of header calls *)

Lemma addHeaders_eq addHeaders http headers rest w :
  addHeaders = Index.addHeaders \/ addHeaders = Extended.addHeaders ->
  typeof headers = "object" -> headers <> VNull ->
  addHeaders http (headers :: rest) w =
    (Normal VUndefined, axios.set_headers http (spread headers ∪ axios.headers http w) w).
Proof.
  intros [-> | ->] Hobject Hnull;
    unfold Index.addHeaders, Extended.addHeaders; cbn;
    by rewrite object_is_truthy, Hobject.
Qed.

Lemma removeHeaders_eq removeHeaders http name names w :
  removeHeaders = Index.removeHeaders \/ removeHeaders = Extended.removeHeaders ->
  removeHeaders http (name :: names) w =
    (Normal VUndefined,
     axios.set_headers http
       (foldl (fun hs header => delete header hs) (axios.headers http w) (name :: names)) w).
Proof. by intros [-> | ->]. Qed.

Lemma set_headers_live http hs w :
  is_Some (https w !! http) -> is_Some (https (axios.set_headers http hs w) !! http).
Proof.
  intros Hlive. cbn. rewrite list_lookup_alter_eq. by apply fmap_is_Some.
Qed.

(** Adding headers and then removing exactly the names added gives back
    the default headers there were, when none of those names was a
    default header before. *)
Theorem add_then_remove_restores
    addHeaders removeHeaders http headers rest name names w :
  addHeaders = Index.addHeaders \/ addHeaders = Extended.addHeaders ->
  removeHeaders = Index.removeHeaders \/ removeHeaders = Extended.removeHeaders ->
  is_Some (https w !! http) ->
  typeof headers = "object" ->
  headers <> VNull ->
  (forall k, k ∈ name :: names <-> is_Some (spread headers !! k)) ->
  (forall k, k ∈ name :: names -> axios.headers http w !! k = None) ->
  exists w1 w2,
    addHeaders http (headers :: rest) w = (Normal VUndefined, w1) /\
    removeHeaders http (name :: names) w1 = (Normal VUndefined, w2) /\
    axios.headers http w2 = axios.headers http w.
Proof.
  intros Hadd Hremove Hlive Hobject Hnull Hnames Hfresh.
  eexists _, _. split; [by apply addHeaders_eq |].
  split; [by apply removeHeaders_eq |].
  rewrite !headers_set_headers by auto using set_headers_live.
  apply map_eq. intros k. rewrite (lookup_delete_all (name :: names)).
  case_decide as Hk.
  - by rewrite Hfresh.
  - apply lookup_union_r, eq_None_not_Some. by rewrite <- Hnames.
Qed.

Lemma add_then_remove_restores_witness :
  exists w1 w2,
    Index.addHeaders 0 [VObj (<["Authorization" := VStr "Bearer t"]> ∅)] one_instance =
      (Normal VUndefined, w1) /\
    Extended.removeHeaders 0 ["Authorization"] w1 = (Normal VUndefined, w2) /\
    axios.headers 0 w2 = axios.headers 0 one_instance.
Proof.
  apply (add_then_remove_restores Index.addHeaders Extended.removeHeaders 0
           (VObj (<["Authorization" := VStr "Bearer t"]> ∅)) [] "Authorization" []
           one_instance (or_introl eq_refl) (or_intror eq_refl)).
  - by eexists.
  - reflexivity.
  - discriminate.
  - intros k. cbn. rewrite list_elem_of_singleton. split.
    + intros ->. by eexists.
    + intros [v Hv]. destruct (decide (k = "Authorization")) as [-> | Hne]; [done |].
      by rewrite lookup_insert_ne in Hv.
  - intros k ->%list_elem_of_singleton. by vm_compute.
Defined.

(** Of two [addHeaders] calls the later wins: a name given in both has
    the value of the second call, a name given in the first only keeps
    that value, and every other default header stays. *)
Theorem later_headers_win addHeaders http first second rest rest' w :
  addHeaders = Index.addHeaders \/ addHeaders = Extended.addHeaders ->
  is_Some (https w !! http) ->
  typeof first = "object" -> first <> VNull ->
  typeof second = "object" -> second <> VNull ->
  exists w1 w2,
    addHeaders http (first :: rest) w = (Normal VUndefined, w1) /\
    addHeaders http (second :: rest') w1 = (Normal VUndefined, w2) /\
    forall k,
      axios.headers http w2 !! k =
        match spread second !! k with
        | Some v => Some v
        | None =>
            match spread first !! k with
            | Some v => Some v
            | None => axios.headers http w !! k
            end
        end.
Proof.
  intros Hadd Hlive Hfirst Hfirst' Hsecond Hsecond'.
  eexists _, _. split; [by apply addHeaders_eq |].
  split; [by apply addHeaders_eq |].
  intros k. rewrite !headers_set_headers by auto using set_headers_live.
  rewrite !lookup_union.
  by destruct (spread second !! k), (spread first !! k), (axios.headers http w !! k).
Qed.

Lemma later_headers_win_witness :
  exists w1 w2,
    Extended.addHeaders 0 [VObj (<["x-custom-header" := VStr "1"]> ∅)] one_instance =
      (Normal VUndefined, w1) /\
    Extended.addHeaders 0 [VObj (<["x-custom-header" := VStr "2"]> ∅)] w1 =
      (Normal VUndefined, w2) /\
    axios.headers 0 w2 !! "x-custom-header" = Some (VStr "2").
Proof.
  destruct (later_headers_win Extended.addHeaders 0
              (VObj (<["x-custom-header" := VStr "1"]> ∅))
              (VObj (<["x-custom-header" := VStr "2"]> ∅)) [] [] one_instance
              (or_intror eq_refl) ltac:(by eexists) eq_refl ltac:(discriminate)
              eq_refl ltac:(discriminate))
    as (w1 & w2 & H1 & H2 & Hlookup).
  exists w1, w2. split; [exact H1 |]. split; [exact H2 |].
  by rewrite Hlookup.
Defined.

(** The default headers left by [removeHeaders] depend only on which
    names are given: their order and repetitions do not matter, and
    removing the same names again changes nothing. *)
Theorem removal_ignores_order_and_repeats
    removeHeaders http name names name' names' w :
  removeHeaders = Index.removeHeaders \/ removeHeaders = Extended.removeHeaders ->
  is_Some (https w !! http) ->
  (forall k, k ∈ name :: names <-> k ∈ name' :: names') ->
  axios.headers http (removeHeaders http (name :: names) w).2 =
    axios.headers http (removeHeaders http (name' :: names') w).2 /\
  axios.headers http
    (removeHeaders http (name :: names) (removeHeaders http (name :: names) w).2).2 =
    axios.headers http (removeHeaders http (name :: names) w).2.
Proof.
  intros Hremove Hlive Hsame.
  rewrite !(removeHeaders_eq _ _ _ _ _ Hremove). cbn [snd].
  rewrite !headers_set_headers by auto using set_headers_live.
  split; apply map_eq; intros k.
  - rewrite (lookup_delete_all (name :: names)), (lookup_delete_all (name' :: names')).
    destruct (decide (k ∈ name :: names)) as [Hin | Hin],
             (decide (k ∈ name' :: names')) as [Hin' | Hin']; try done; exfalso.
    + by apply Hin', Hsame.
    + by apply Hin, Hsame.
  - rewrite !(lookup_delete_all (name :: names)). by case_decide.
Qed.

Lemma removal_ignores_order_and_repeats_witness :
  axios.headers 0 (Index.removeHeaders 0 ["a"; "b"; "a"] one_instance).2 =
    axios.headers 0 (Index.removeHeaders 0 ["b"; "a"] one_instance).2.
Proof.
  apply (removal_ignores_order_and_repeats Index.removeHeaders 0 "a" ["b"; "a"] "b" ["a"]
           one_instance (or_introl eq_refl)); [by eexists |].
  intros k. rewrite !elem_of_cons, !elem_of_nil. tauto.
Defined.

(** ** URLs *)

Lemma append_inj_r (s a b : string) : s +:+ a = s +:+ b -> a = b.
Proof. induction s as [| c s IH]; cbn; [done |]. intros [= H]. by apply IH. Qed.

(** Synthesized calls of two members with different string names never
    go to the same URL: with the same arguments, what they hand to the
    transport differs. A symbol, however, shares its URL with the string
    that spells it. *)
Theorem member_names_have_their_own_url env http serviceName a b withMsgPack args w :
  a <> b ->
  sent (Index.defaultTrap env http serviceName (KStr a) withMsgPack args w).2 <>
    sent (Index.defaultTrap env http serviceName (KStr b) withMsgPack args w).2 /\
  sent (Extended.defaultTrap env http serviceName (KStr a) withMsgPack args w).2 <>
    sent (Extended.defaultTrap env http serviceName (KStr b) withMsgPack args w).2 /\
  forall description,
    sent (Extended.defaultTrap env http serviceName (KSym description) withMsgPack args w).2 =
      sent (Extended.defaultTrap env http serviceName
              (KStr ("Symbol(" +:+ description +:+ ")")) withMsgPack args w).2.
Proof.
  intros Hab. rewrite !Index_defaultTrap_eq, !Extended_defaultTrap_eq. cbn.
  split; [| split; [| done]].
  - intros [= H]%app_inv_head. apply Hab.
    destruct args; injection H as H; by apply append_inj_r, append_inj_r in H.
  - intros [= H]%app_inv_head. apply Hab.
    destruct args; injection H as H; by apply append_inj_r, append_inj_r in H.
Qed.

Lemma member_names_have_their_own_url_witness :
  sent (Index.defaultTrap mock 0 (Some "IMyService") (KStr "getSample") false []
          empty_world).2 <>
    sent (Index.defaultTrap mock 0 (Some "IMyService") (KStr "getSamples") false []
            empty_world).2.
Proof.
  apply (member_names_have_their_own_url mock 0 (Some "IMyService") "getSample" "getSamples"
           false [] empty_world).
  discriminate.
Defined.

(** ** [withMsgPack] left out, and the two revisions without msgpack *)

(** A config without [withMsgPack] makes the same service as one with
    [withMsgPack: false]: the same world after [createService], and
    proxies on the same base object that read alike. *)
Theorem left_out_withMsgPack_is_false url name axiosConfig baseService w0 :
  (exists p p',
     Index.createService {| baseURL := url; serviceName := name; withMsgPack := None |}
       axiosConfig baseService w0 =
       (Normal p, (Index.createService
                     {| baseURL := url; serviceName := name; withMsgPack := Some false |}
                     axiosConfig baseService w0).2) /\
     (Index.createService {| baseURL := url; serviceName := name; withMsgPack := Some false |}
        axiosConfig baseService w0).1 = Normal p' /\
     proxy_target p = proxy_target p' /\
     forall k w, proxy_get p k w = proxy_get p' k w) /\
  (exists p p',
     Extended.createService {| baseURL := url; serviceName := name; withMsgPack := None |}
       axiosConfig baseService w0 =
       (Normal p, (Extended.createService
                     {| baseURL := url; serviceName := name; withMsgPack := Some false |}
                     axiosConfig baseService w0).2) /\
     (Extended.createService
        {| baseURL := url; serviceName := name; withMsgPack := Some false |}
        axiosConfig baseService w0).1 = Normal p' /\
     proxy_target p = proxy_target p' /\
     forall k w, proxy_get p k w = proxy_get p' k w).
Proof.
  rewrite !Index_createService_eq, !Extended_createService_eq.
  split; eexists _, _; (split; [reflexivity |]); (split; [reflexivity |]);
    (split; [reflexivity |]); intros k w; reflexivity.
Qed.

Lemma addHeaders_agree http args w :
  Index.addHeaders http args w = Extended.addHeaders http args w.
Proof. unfold Index.addHeaders, Extended.addHeaders. by destruct args. Qed.

Lemma defaultTrap_agree env http serviceName P args w :
  Index.defaultTrap env http serviceName P false args w =
    Extended.defaultTrap env http serviceName P false args w.
Proof.
  rewrite Index_defaultTrap_eq, Extended_defaultTrap_eq. cbn.
  by destruct (respond env _) as [[] payload].
Qed.

(** Without msgpack the revision with interceptors behaves as
    [src/index.ts] on everything [src/index.ts] offers: [createService]
    leaves the same world, every name other than the three new control
    names reads alike, and [addHeaders], [removeHeaders] with at least
    one name and the synthesized call of a name absent from the base
    object have the same outcome. *)
Theorem revisions_agree_without_msgpack
    env config axiosConfig baseService w0 p_index w_index p_ext w_ext :
  default false (withMsgPack config) = false ->
  Index.createService config axiosConfig baseService w0 = (Normal p_index, w_index) ->
  Extended.createService config axiosConfig baseService w0 = (Normal p_ext, w_ext) ->
  w_index = w_ext /\
  (forall k w,
     k <> KStr "addInterceptor" -> k <> KStr "removeInterceptor" ->
     k <> KStr "createRequest" ->
     proxy_get p_index k w = proxy_get p_ext k w) /\
  (forall k args w,
     k = KStr "addHeaders" \/
     (k = KStr "removeHeaders" /\ args <> []) \/
     (~ is_reserved k /\ lookup_slot (object_at (proxy_target p_index) w) k = None) ->
     invoke (Index.call env) p_index k args w = invoke (Extended.call env) p_ext k args w).
Proof.
  intros Hplain Hindex Hext.
  assert (proxy_target p_ext = proxy_target p_index) as Htarget.
  { rewrite Index_createService_eq in Hindex. rewrite Extended_createService_eq in Hext.
    by simplify_eq. }
  split; [| split].
  - rewrite Index_createService_eq in Hindex. rewrite Extended_createService_eq in Hext.
    simplify_eq. unfold Index.axios_config, Extended.axios_config.
    by rewrite !format_object, Hplain, (left_id_L ∅ (∪)).
  - intros k w H1 H2 H3.
    rewrite (Index_proxy_get _ _ _ _ _ _ _ _ Hindex),
      (Extended_proxy_get _ _ _ _ _ _ _ _ Hext), Htarget.
    unfold Index.get, Extended.get. repeat case_decide; try done.
    destruct (Reflect_get _ _) as [v | e]; [done |].
    by destruct (instanceof_TypeError e).
  - intros k args w Hk. unfold invoke.
    rewrite (Index_proxy_read _ _ _ _ _ _ _ _ Hindex),
      (Extended_proxy_read _ _ _ _ _ _ _ _ Hext), Htarget.
    destruct Hk as [-> | [[-> Hargs] | [Hk Habs]]].
    + change (Index.get _ _ _ _ (KStr "addHeaders") OnProxy)
        with (Normal (Made (CAddHeaders (length (https w0))))).
      change (Extended.get _ _ _ _ (KStr "addHeaders") OnProxy)
        with (Normal (Made (CAddHeaders (length (https w0))))).
      rewrite checked_made. destruct (is_locked _ _); [done |].
      change (Some (Index.addHeaders (length (https w0)) args w) =
              Some (Extended.addHeaders (length (https w0)) args w)).
      by rewrite addHeaders_agree.
    + change (Index.get _ _ _ _ (KStr "removeHeaders") OnProxy)
        with (Normal (Made (CRemoveHeaders (length (https w0))))).
      change (Extended.get _ _ _ _ (KStr "removeHeaders") OnProxy)
        with (Normal (Made (CRemoveHeaders (length (https w0))))).
      rewrite checked_made. destruct (is_locked _ _); [done |].
      change (Index.call env (CRemoveHeaders (length (https w0))) args w =
              Extended.call env (CRemoveHeaders (length (https w0))) args w).
      cbn. destruct (strings_of args) as [names |] eqn:Hnames; [| done]. cbn.
      destruct names as [| name names]; [| done].
      destruct args as [| a args]; [done |].
      unfold strings_of in Hnames. cbn in Hnames.
      destruct a; try done. by destruct (mapM _ args).
    + assert (k <> KStr "addHeaders" /\ k <> KStr "removeHeaders") as [? ?].
      { rewrite reserved_names in Hk. split; intros ->; tauto. }
      rewrite Index_get_other, Extended_get_other by done.
      rewrite (Reflect_get_absent _ _ _ Habs).
      cbn -[Index.defaultTrap Extended.defaultTrap].
      rewrite respects_invariant_unlocked by by apply absent_is_not_locked.
      cbn -[Index.defaultTrap Extended.defaultTrap].
      rewrite Hplain. by rewrite defaultTrap_agree.
Qed.

Lemma revisions_agree_without_msgpack_witness :
  exists p_index p_ext w,
    Index.createService (localhost None) VUndefined None empty_world = (Normal p_index, w) /\
    Extended.createService (localhost None) VUndefined None empty_world = (Normal p_ext, w) /\
    invoke (Index.call mock) p_index (KStr "postSample") [sample] w =
      invoke (Extended.call mock) p_ext (KStr "postSample") [sample] w.
Proof.
  eexists _, _, _. split; [reflexivity |]. split; [reflexivity |].
  refine (proj2 (proj2 (revisions_agree_without_msgpack mock (localhost None) VUndefined
            None empty_world _ _ _ _ eq_refl eq_refl eq_refl)) _ _ _ _).
  right. right. split; [compute_done | by vm_compute].
Defined.

(** ** Two services over one base object *)

(** The base object is borrowed, not copied: when two services are made
    over the same base object and that object takes the write (see
    [accepts_write]), a value other than [null] and [undefined] written
    through one proxy under a name that is not reserved is what the
    other proxy reads. *)
Theorem services_share_the_base_object
    create1 create2 config1 axiosConfig1 config2 axiosConfig2 t w0 p1 w1 p2 w2 k v w :
  create1 = Index.createService \/ create1 = Extended.createService ->
  create2 = Index.createService \/ create2 = Extended.createService ->
  create1 config1 axiosConfig1 (Some t) w0 = (Normal p1, w1) ->
  create2 config2 axiosConfig2 (Some t) w1 = (Normal p2, w2) ->
  is_Some (objects w !! t) ->
  ~ is_reserved k ->
  nullish v = false ->
  accepts_write (object_at t w) k = true ->
  proxy_target p1 = t /\ proxy_target p2 = t /\
  (proxy_set p1 k v w).1 = Normal true /\
  proxy_read p2 k (proxy_set p1 k v w).2 = Normal v.
Proof.
  intros Hcreate1 Hcreate2 Hp1 Hp2 Hlive Hk Hv Haccepts.
  destruct (handler_of _ _ _ _ _ _ _ Hcreate1 Hp1) as [Ht1 Hhandler].
  destruct (handler_of _ _ _ _ _ _ _ Hcreate2 Hp2) as [Ht2 _].
  cbn in Ht1, Ht2.
  split; [done |]. split; [done |].
  destruct (Reflect_set_accepted _ _ v Haccepts) as [configurable Hset].
  destruct (untrapped_operations p1 _ _ _ k v w Hhandler) as (_ & _ & Hpset & _).
  rewrite Hpset, Ht1, Hset. cbn [fst snd]. split; [done |].
  rewrite (proxy_read_other _ _ _ _ _ _ _ _ _ Hcreate2 Hp2 Hk), Ht2.
  rewrite object_at_store by done.
  destruct (read_own_data (object_at t w) k v configurable OnProxy) as (-> & -> & _).
  by rewrite Hv.
Qed.

Lemma services_share_the_base_object_witness :
  exists p1 w1 p2 w2,
    Index.createService (localhost None) VUndefined (Some 0)
      (alloc existingservice empty_world).2 = (Normal p1, w1) /\
    Extended.createService (localhost (Some true)) VUndefined (Some 0) w1 = (Normal p2, w2) /\
    proxy_read p2 (KStr "token") (proxy_set p1 (KStr "token") (VStr "abc") w2).2 =
      Normal (VStr "abc").
Proof.
  eexists _, _, _, _. split; [reflexivity |]. split; [reflexivity |].
  refine (proj2 (proj2 (proj2 (services_share_the_base_object Index.createService
            Extended.createService (localhost None) VUndefined (localhost (Some true))
            VUndefined 0 _ _ _ _ _ (KStr "token") (VStr "abc") _
            (or_introl eq_refl) (or_intror eq_refl) eq_refl eq_refl _ _ eq_refl _)))).
  - by eexists.
  - compute_done.
  - by vm_compute.
Defined.
